(** * Marketing spend audit and revenue reconciliation

    A shallow embedding of [src/audit_utils.py] and the properties of its
    four calculators: [calculate_roas], [calculate_cac],
    [detect_misreporting] and [generate_reconciliation_report].

    Modelling conventions.
    - A pandas [DataFrame] is a finite map from column names to columns; a
      column carries its dtype ([float64], [object] holding strings,
      [datetime64[ns]]) and a list of cells, a missing cell ([NaN], [NaT])
      being [None].  The row index is the position in the list.
    - Numbers are exact rationals ([Qc]): the rounding of binary floating
      point is not modelled.  The non-finite results of a float division
      are kept ([float]).
    - A timestamp is a number of nanoseconds since the epoch ([Z]).
    - A raised exception is a [fault]; a function that can raise returns a
      [result].  Frames are Python objects: they live in a [heap] and are
      passed by reference ([loc]) where the code writes to them.
    - Text written to the console and float formatting inside the
      [details] strings are left out; [details] keeps the number that the
      string renders. *)

From Stdlib Require Import Ascii QArith Qcanon Rbase Rfunctions R_sqrt Qreals Lra.
From stdpp Require Import base gmap strings list sorting numbers.

#[local] Set Warnings "-clear-no-such-hyp".

Local Open Scope string_scope.
Local Open Scope list_scope.

(** ** Faults and results *)

Inductive fault :=
| FileNotFoundError (path : string)
| KeyError (key : string)
| TypeError
| ValueError
| AttributeError
| MergeError
| OtherError (msg : string).

Inductive result (A : Type) :=
| Ok (a : A)
| Raise (e : fault).
Arguments Ok {A} a.
Arguments Raise {A} e.

#[global] Instance result_ret : MRet result := λ A a, Ok a.
#[global] Instance result_bind : MBind result := λ A B f r,
  match r with Ok a => f a | Raise e => Raise e end.

Definition is_ok {A} (r : result A) : bool :=
  match r with Ok _ => true | Raise _ => false end.

(** ** Numbers *)

(** The outcome of a float division: finite, or one of the three
    non-finite values. *)
Inductive float :=
| Fin (q : Qc)
| PosInf
| NegInf
| NaN.

#[global] Instance float_eq_dec : EqDecision float.
Proof. solve_decision. Defined.

(** [x / y] on finite floats, as numpy evaluates it: no exception on a zero
    divisor. *)
Definition fdiv (x y : Qc) : float :=
  if decide (y = 0%Qc) then
    if decide (x = 0%Qc) then NaN
    else if decide (0 < x)%Qc then PosInf else NegInf
  else Fin (x / y)%Qc.

Definition Qc_of_nat (n : nat) : Qc := Qc_of_Z (Z.of_nat n).

(** Sum of a float column: missing cells are skipped. *)
Definition nansum (xs : list (option Qc)) : Qc :=
  foldr (λ x acc, (default 0 x + acc)%Qc) 0%Qc xs.

(** ** Cells, columns and frames *)

(** A scalar that is not missing. *)
Inductive value :=
| VNum (q : Qc)
| VStr (s : string)
| VTime (t : Z).

#[global] Instance value_eq_dec : EqDecision value.
Proof. solve_decision. Defined.

#[global] Instance value_countable : Countable value.
Proof.
  refine (inj_countable'
    (λ v, match v with
          | VNum q => inl q
          | VStr s => inr (inl s)
          | VTime t => inr (inr t)
          end)
    (λ e, match e with
          | inl q => VNum q
          | inr (inl s) => VStr s
          | inr (inr t) => VTime t
          end) _).
  by intros [].
Defined.

Inductive dtype := float64 | object | datetime64.

#[global] Instance dtype_eq_dec : EqDecision dtype.
Proof. solve_decision. Defined.

Inductive column :=
| Float64 (xs : list (option Qc))
| Object (xs : list (option string))
| Datetime64 (xs : list (option Z)).

#[global] Instance column_eq_dec : EqDecision column.
Proof. solve_decision. Defined.

Definition col_dtype (c : column) : dtype :=
  match c with
  | Float64 _ => float64
  | Object _ => object
  | Datetime64 _ => datetime64
  end.

(** The cells of a column, whatever its dtype. *)
Definition cells (c : column) : list (option value) :=
  match c with
  | Float64 xs => option_map VNum <$> xs
  | Object xs => option_map VStr <$> xs
  | Datetime64 xs => option_map VTime <$> xs
  end.

(** Positional selection of rows ([iloc]); a position past the end gives a
    missing cell. *)
Definition take_list {A} (idx : list nat) (xs : list (option A)) : list (option A) :=
  (λ i, default None (xs !! i)) <$> idx.

Definition take (idx : list nat) (c : column) : column :=
  match c with
  | Float64 xs => Float64 (take_list idx xs)
  | Object xs => Object (take_list idx xs)
  | Datetime64 xs => Datetime64 (take_list idx xs)
  end.

Abbreviation DataFrame := (gmap string column).

(** [df[c]] *)
Definition getitem (df : DataFrame) (c : string) : result column :=
  match df !! c with
  | Some col => Ok col
  | None => Raise (KeyError c)
  end.

(** Numeric use of a column. *)
Definition as_float64 (c : column) : result (list (option Qc)) :=
  match c with
  | Float64 xs => Ok xs
  | _ => Raise TypeError
  end.

(** The [.dt] accessor. *)
Definition dt (c : column) : result (list (option Z)) :=
  match c with
  | Datetime64 ts => Ok ts
  | _ => Raise AttributeError
  end.

(** A Series indexed by group key, as [groupby] produces it: one entry per
    key, rows ordered by key. *)
Abbreviation Series A := (gmap value A).

(** ** Group-by aggregations *)

(** [groupby(key)[val].sum()] on the two columns: rows with a missing key
    form no group, missing values add nothing. *)
Definition group_sum (keys : list (option value)) (vals : list (option Qc)) : Series Qc :=
  foldr (λ '(k, x) acc,
          match k with
          | Some kv => <[kv := (default 0 x + default 0 (acc !! kv))%Qc]> acc
          | None => acc
          end) ∅ (zip keys vals).

Definition groupby_sum (df : DataFrame) (key val : string) : result (Series Qc) :=
  k ← getitem df key;
  v ← getitem df val;
  xs ← as_float64 v;
  Ok (group_sum (cells k) xs).

(** [groupby(key)[val].nunique()]: per group, the number of distinct values
    that are not missing. *)
Definition group_sets (keys vals : list (option value)) : Series (gset value) :=
  foldr (λ '(k, x) acc,
          match k with
          | Some kv =>
              <[kv := (match x with Some u => {[u]} | None => ∅ end) ∪ default ∅ (acc !! kv)]> acc
          | None => acc
          end) ∅ (zip keys vals).

Definition groupby_nunique (df : DataFrame) (key val : string) : result (Series nat) :=
  k ← getitem df key;
  v ← getitem df val;
  Ok (size <$> group_sets (cells k) (cells v)).

(** ** Row selection and joins *)

(** The positions at which a boolean mask holds. *)
Fixpoint where_true (mask : list bool) : list nat :=
  match mask with
  | [] => []
  | b :: mask' => (if b then [0] else []) ++ (S <$> where_true mask')
  end.

(** [df[mask]] *)
Definition boolean_index (df : DataFrame) (mask : list bool) : DataFrame :=
  take (where_true mask) <$> df.

(** The positions kept by [drop_duplicates()]: the first occurrence of
    every row. *)
Fixpoint first_occurrences {A} `{EqDecision A} (l : list A) : list nat :=
  match l with
  | [] => []
  | x :: l' =>
      0 :: (S <$> filter (λ i, l' !! i ≠ Some x) (first_occurrences l'))
  end.

(** The row pairs of an inner join on one key column: every left row, in
    order, with the right rows of equal key, in order.  Two missing keys are
    equal, as pandas has it. *)
Fixpoint join_pairs (l r : list (option value)) : list (nat * nat) :=
  match l with
  | [] => []
  | x :: l' =>
      (pair 0 <$> where_true ((λ y, bool_decide (x = y)) <$> r))
      ++ (prod_map S id <$> join_pairs l' r)
  end.

(** [ldf.merge(rdf, on=on, suffixes=(lsuffix, rsuffix))], an inner
    join.  A column other than the key that both frames have gets the
    suffixes; resulting duplicate names are refused. *)
Definition merge_inner (ldf rdf : DataFrame) (on lsuffix rsuffix : string)
  : result DataFrame :=
  lk ← getitem ldf on;
  rk ← getitem rdf on;
  if decide (col_dtype lk = col_dtype rk) then
    let idx := join_pairs (cells lk) (cells rk) in
    let lname c := if decide (c ≠ on ∧ is_Some (rdf !! c)) then c +:+ lsuffix else c in
    let rname c := if decide (is_Some (ldf !! c)) then c +:+ rsuffix else c in
    let lcols := (λ e, (lname e.1, take idx.*1 e.2)) <$> map_to_list ldf in
    let rcols := (λ e, (rname e.1, take idx.*2 e.2)) <$> map_to_list (delete on rdf) in
    if decide (NoDup (lcols ++ rcols).*1)
    then Ok (list_to_map (lcols ++ rcols))
    else Raise MergeError
  else Raise ValueError.

(** [num / den] on two Series: the indexes are aligned on their union and
    a key missing on either side gives [NaN]. *)
Definition series_div (num den : Series Qc) : Series float :=
  merge (λ a b, match a, b with
                | Some x, Some y => Some (fdiv x y)
                | None, None => None
                | _, _ => Some NaN
                end) num den.

(** ** calculate_roas *)

Definition calculate_roas (df_mkt df_fin df_spend : DataFrame)
  : result (Series float * Series float) :=
  spend_by_channel ← groupby_sum df_spend "campaign" "spend";
  mkt_revenue_by_channel ← groupby_sum df_mkt "campaign" "revenue";
  merged ← merge_inner df_mkt df_fin "date" "_mkt" "_fin";
  fin_revenue_by_channel ← groupby_sum merged "campaign" "revenue_fin";
  let roas_mkt := series_div mkt_revenue_by_channel spend_by_channel in
  let roas_fin := series_div fin_revenue_by_channel spend_by_channel in
  Ok (roas_mkt, roas_fin).

(** ** The heap of frames *)

(** A frame is a mutable object; [loc] is a reference to one. *)
Definition loc := positive.
Abbreviation heap := (gmap loc DataFrame).

(** Computations that read and write frames and may raise. *)
Definition M (A : Type) : Type := heap → heap * result A.

#[global] Instance M_ret : MRet M := λ A a h, (h, Ok a).
#[global] Instance M_bind : MBind M := λ A B f m h,
  match m h with
  | (h', Ok a) => f a h'
  | (h', Raise e) => (h', Raise e)
  end.

Definition lift {A} (r : result A) : M A := λ h, (h, r).

(** The frame behind a reference. *)
Definition deref (l : loc) : M DataFrame := λ h,
  (h, match h !! l with
      | Some df => Ok df
      | None => Raise (OtherError "dangling reference")
      end).

(** [df[c] = col], written into the object itself. *)
Definition setitem (l : loc) (c : string) (col : column) : M unit := λ h,
  (alter (insert c col) l h, Ok ()).

(** A new frame object. *)
Definition alloc (df : DataFrame) : M loc := λ h,
  let l := fresh (dom h) in (<[l := df]> h, Ok l).

(** ** calculate_cac *)

Definition ns_per_day : Z := 86400000000000.

(** [pd.to_datetime(t.date())]: midnight of the day of [t]. *)
Definition to_date (t : Z) : Z := (t `div` ns_per_day * ns_per_day)%Z.

Record cac_row := CacRow { cac : float; customers : nat }.

#[global] Instance cac_row_eq_dec : EqDecision cac_row.
Proof. solve_decision. Defined.

(** [df_spend[['date', 'campaign']].drop_duplicates()] *)
Definition daily_campaigns_of (spend : DataFrame) : result DataFrame :=
  d ← getitem spend "date";
  c ← getitem spend "campaign";
  let keep := first_occurrences (zip (cells d) (cells c)) in
  Ok (<["date" := take keep d]> {["campaign" := take keep c]}).

(** The checkout events of every campaign and the number of their distinct
    users: the Series [acquisitions]. *)
Definition acquisitions_of (funnel daily_campaigns : DataFrame) : result (Series nat) :=
  events_with_campaign ← merge_inner funnel daily_campaigns "date" "_x" "_y";
  event_type ← getitem events_with_campaign "event_type";
  let checkouts :=
    boolean_index events_with_campaign
      ((λ x, bool_decide (x = Some (VStr "checkout"))) <$> cells event_type) in
  groupby_nunique checkouts "campaign" "user_id".

(** [pd.merge(acquisitions, spend_by_channel, on='campaign')] with the
    column [cac = spend / customers]. *)
Definition cac_table (acquisitions : Series nat) (spend_by_channel : Series Qc)
  : Series cac_row :=
  merge (λ a b, match a, b with
                | Some n, Some s => Some (CacRow (fdiv s (Qc_of_nat n)) n)
                | _, _ => None
                end) acquisitions spend_by_channel.

Definition calculate_cac (df_spend df_funnel : loc) : M (Series cac_row) :=
  spend ← deref df_spend;
  daily_campaigns ← lift (daily_campaigns_of spend);
  funnel ← deref df_funnel;
  ts ← lift (getitem funnel "timestamp" ≫= dt);
  _ ← setitem df_funnel "date" (Datetime64 (option_map to_date <$> ts));
  funnel ← deref df_funnel;
  acquisitions ← lift (acquisitions_of funnel daily_campaigns);
  spend ← deref df_spend;
  spend_by_channel ← lift (groupby_sum spend "campaign" "spend");
  mret (cac_table acquisitions spend_by_channel).

(** What [calculate_cac] does after it has written the date column. *)
Definition cac_after_write (df_spend df_funnel : loc) (daily_campaigns : DataFrame)
  : M (Series cac_row) :=
  funnel ← deref df_funnel;
  acquisitions ← lift (acquisitions_of funnel daily_campaigns);
  spend ← deref df_spend;
  spend_by_channel ← lift (groupby_sum spend "campaign" "spend");
  mret (cac_table acquisitions spend_by_channel).

(** A computation that writes to no frame. *)
Definition readonly {A} (m : M A) : Prop := ∀ h, (m h).1 = h.

(** ** detect_misreporting *)

Inductive anomaly_kind := RevenueInflation | MissingInvoice | OutlierSpend.
Inductive severity_level := High | Critical.

(** The number a [details] string renders. *)
Inductive details_text :=
| Variance (v : Qc)
| MktRevenue (r : Qc)
| Spend (s : Qc).

Record anomaly := Anomaly {
  date : option value;
  anomaly_type : anomaly_kind;
  details : details_text;
  severity : severity_level
}.

#[global] Instance anomaly_kind_eq_dec : EqDecision anomaly_kind.
Proof. solve_decision. Defined.
#[global] Instance severity_level_eq_dec : EqDecision severity_level.
Proof. solve_decision. Defined.
#[global] Instance details_text_eq_dec : EqDecision details_text.
Proof. solve_decision. Defined.
#[global] Instance anomaly_eq_dec : EqDecision anomaly.
Proof. solve_decision. Defined.

(** The order of the keys of a merged frame. *)
Definition value_le (a b : value) : Prop :=
  match a, b with
  | VNum x, VNum y => (x ≤ y)%Qc
  | VNum _, _ => True
  | VStr _, VNum _ => False
  | VStr x, VStr y => String.leb x y
  | VStr _, VTime _ => True
  | VTime x, VTime y => (x ≤ y)%Z
  | VTime _, _ => False
  end.

#[global] Instance value_le_dec : RelDecision value_le.
Proof. intros [] []; simpl; apply _. Defined.

(** One row of [revenue_comp]. *)
Record comp_row := CompRow {
  comp_date : value;
  mkt_revenue : Qc;
  fin_revenue : Qc
}.

Definition by_date (x y : value * (Qc * Qc)) : Prop := value_le x.1 y.1.

#[global] Instance by_date_dec : RelDecision by_date.
Proof. intros x y. unfold by_date. apply _. Defined.

(** [pd.merge(mkt_rev_agg, fin_rev_agg, on='date', how='outer').fillna(0)]:
    one row per date of either side, ordered by date. *)
Definition outer_merge_fillna (mkt_rev_agg fin_rev_agg : Series Qc) : list comp_row :=
  let joined : Series (Qc * Qc) :=
    merge (λ a b, match a, b with
                  | None, None => None
                  | _, _ => Some (default 0%Qc a, default 0%Qc b)
                  end) mkt_rev_agg fin_rev_agg in
  (λ e, CompRow e.1 e.2.1 e.2.2)
    <$> merge_sort by_date (map_to_list joined).

Definition variance (row : comp_row) : Qc :=
  ((mkt_revenue row - fin_revenue row) / fin_revenue row)%Qc.

(** [Series.mean()] and [Series.std()] skip missing cells; the mean of no
    value and the standard deviation of fewer than two values are [NaN]
    ([None]).  The standard deviation is the square root of the variance
    with [ddof=1], the default of pandas; it is kept as that variance. *)
Definition present (xs : list (option Qc)) : list Qc := omap (λ x, x) xs.

Definition sumQc (xs : list Qc) : Qc := foldr Qcplus 0%Qc xs.

Definition mean (xs : list (option Qc)) : option Qc :=
  let ys := present xs in
  if decide (length ys = 0) then None
  else Some (sumQc ys / Qc_of_nat (length ys))%Qc.

Definition sum_sq_dev (m : Qc) (ys : list Qc) : Qc :=
  sumQc ((λ y, (y - m) * (y - m))%Qc <$> ys).

Definition var (ddof : nat) (xs : list (option Qc)) : option Qc :=
  let ys := present xs in
  m ← mean xs;
  if decide (length ys ≤ ddof)%nat then None
  else Some (sum_sq_dev m ys / Qc_of_nat (length ys - ddof))%Qc.

(** The number [th_mean + 2 * sqrt th_var]. *)
Record threshold := Threshold { th_mean : Qc; th_var : Qc }.

(** The value of a threshold, a real number. *)
Definition threshold_value (t : threshold) : R :=
  (Q2R (th_mean t) + 2 * sqrt (Q2R (th_var t)))%R.

(** [x > t], decided without the square root. *)
Definition exceeds (x : Qc) (t : threshold) : bool :=
  bool_decide (th_mean t < x)%Qc
  && bool_decide (Qc_of_Z 4 * th_var t < (x - th_mean t) * (x - th_mean t))%Qc.

(** [x > t] on cells: a comparison with [NaN] on either side is false. *)
Definition gt_threshold (x : option Qc) (t : option threshold) : bool :=
  match x, t with
  | Some x, Some t => exceeds x t
  | _, _ => false
  end.

(** 1. Revenue Inflation (only where finance revenue is reported) *)
Definition revenue_inflation (revenue_comp : list comp_row) : list anomaly :=
  let inflation_candidates := filter (λ row, 0 < fin_revenue row)%Qc revenue_comp in
  let inflated := filter (λ row, Q2Qc (2 # 10) < variance row)%Qc inflation_candidates in
  (λ row, Anomaly (Some (comp_date row)) RevenueInflation (Variance (variance row))
            (if decide (Q2Qc (5 # 10) < variance row)%Qc then Critical else High))
    <$> inflated.

(** 2. Missing Invoices (where finance revenue is zero but marketing
    revenue is not) *)
Definition missing_invoices (revenue_comp : list comp_row) : list anomaly :=
  let missing :=
    filter (λ row, fin_revenue row = 0 ∧ 0 < mkt_revenue row)%Qc revenue_comp in
  (λ row, Anomaly (Some (comp_date row)) MissingInvoice (MktRevenue (mkt_revenue row)) High)
    <$> missing.

(** [spend_mean + 2 * spend_std]; [NaN] when either is. *)
Definition outlier_threshold (spend : list (option Qc)) : option threshold :=
  spend_mean ← mean spend;
  spend_std ← var 1 spend;
  Some (Threshold spend_mean spend_std).

(** 3. Outlier Spend Days.  The rows are read, [row['date']] and
    [row['spend']], only when there is an outlier. *)
Definition outlier_spend (df_spend : DataFrame) : result (list anomaly) :=
  spend ← getitem df_spend "spend" ≫= as_float64;
  let outliers :=
    where_true ((λ x, gt_threshold x (outlier_threshold spend)) <$> spend) in
  match outliers with
  | [] => Ok []
  | _ =>
      spend_date ← getitem df_spend "date";
      Ok ((λ i, Anomaly (default None (cells spend_date !! i)) OutlierSpend
                  (Spend (default 0%Qc (default None (spend !! i)))) High) <$> outliers)
  end.

Definition detect_misreporting (df_mkt df_fin df_spend : DataFrame)
  : result (list anomaly) :=
  (* Aggregate revenue and merge *)
  mkt_rev_agg ← groupby_sum df_mkt "date" "revenue";
  fin_rev_agg ← groupby_sum df_fin "date" "revenue";
  mkt_date ← getitem df_mkt "date";
  fin_date ← getitem df_fin "date";
  if decide (col_dtype mkt_date = col_dtype fin_date) then
    let revenue_comp := outer_merge_fillna mkt_rev_agg fin_rev_agg in
    let anomalies1 := revenue_inflation revenue_comp in
    let anomalies2 := missing_invoices revenue_comp in
    anomalies3 ← outlier_spend df_spend;
    Ok (anomalies1 ++ anomalies2 ++ anomalies3)
  else Raise ValueError.

(** ** The report *)

Inductive scalar :=
| Number (x : Qc)
| Ratio (f : float)
| Count (n : nat).

Inductive entry :=
| Summary (s : gmap string scalar)
| Roas (t : Series float)
| Cac (t : Series cac_row)
| Anomalies (l : list anomaly).

Abbreviation report := (gmap string entry).

(** [df[c].sum()] *)
Definition column_sum (df : DataFrame) (c : string) : result Qc :=
  col ← getitem df c;
  xs ← as_float64 col;
  Ok (nansum xs).

(** The calculations of [generate_reconciliation_report], from the four
    loaded frames to the report. *)
Definition reconcile (df_mkt df_fin df_spend df_funnel : loc) : M report :=
  mkt ← deref df_mkt;
  fin ← deref df_fin;
  spend ← deref df_spend;
  roas ← lift (calculate_roas mkt fin spend);
  cac_df ← calculate_cac df_spend df_funnel;
  mkt ← deref df_mkt;
  fin ← deref df_fin;
  spend ← deref df_spend;
  anomalies_df ← lift (detect_misreporting mkt fin spend);
  (* Executive Metrics *)
  total_spend ← lift (column_sum spend "spend");
  total_fin_revenue ← lift (column_sum fin "revenue");
  let overall_roas := fdiv total_fin_revenue total_spend in
  let executive_summary : gmap string scalar :=
    <["total_spend" := Number total_spend]>
    (<["total_finance_revenue" := Number total_fin_revenue]>
    (<["overall_finance_roas" := Ratio overall_roas]>
    {["total_anomalies_detected" := Count (length anomalies_df)]})) in
  mret (<["executive_summary" := Summary executive_summary]>
       (<["roas_marketing" := Roas roas.1]>
       (<["roas_finance" := Roas roas.2]>
       (<["cac_by_channel" := Cac cac_df]>
       {["detected_anomalies" := Anomalies anomalies_df]})))).

(** The steps of [reconcile] before and after [calculate_cac]; both only
    read the frames. *)
Definition roas_step (df_mkt df_fin df_spend : loc)
  : M (Series float * Series float) :=
  mkt ← deref df_mkt;
  fin ← deref df_fin;
  spend ← deref df_spend;
  lift (calculate_roas mkt fin spend).

Definition summary_step (df_mkt df_fin df_spend : loc)
    (roas : Series float * Series float) (cac_df : Series cac_row) : M report :=
  mkt ← deref df_mkt;
  fin ← deref df_fin;
  spend ← deref df_spend;
  anomalies_df ← lift (detect_misreporting mkt fin spend);
  total_spend ← lift (column_sum spend "spend");
  total_fin_revenue ← lift (column_sum fin "revenue");
  let overall_roas := fdiv total_fin_revenue total_spend in
  let executive_summary : gmap string scalar :=
    <["total_spend" := Number total_spend]>
    (<["total_finance_revenue" := Number total_fin_revenue]>
    (<["overall_finance_roas" := Ratio overall_roas]>
    {["total_anomalies_detected" := Count (length anomalies_df)]})) in
  mret (<["executive_summary" := Summary executive_summary]>
       (<["roas_marketing" := Roas roas.1]>
       (<["roas_finance" := Roas roas.2]>
       (<["cac_by_channel" := Cac cac_df]>
       {["detected_anomalies" := Anomalies anomalies_df]})))).

(** The report and the heap after running [reconcile] twice in a row on the
    same four frames. *)
Definition reconcile_twice (df_mkt df_fin df_spend df_funnel : loc) (h : heap)
  : (heap * result report) * (heap * result report) :=
  let first := reconcile df_mkt df_fin df_spend df_funnel h in
  (first, reconcile df_mkt df_fin df_spend df_funnel first.1).

(** ** Loading *)

Fixpoint contains (needle hay : string) : bool :=
  String.prefix needle hay
  || match hay with
     | EmptyString => false
     | String _ hay' => contains needle hay'
     end.

(** [filename.split('.')[0]] *)
Fixpoint stem (filename : string) : string :=
  match filename with
  | EmptyString => EmptyString
  | String a rest => if Ascii.eqb a "."%char then EmptyString else String a (stem rest)
  end.

Definition files_to_load : list string :=
  ["marketing_spend.csv"; "funnel_events.csv"; "revenue_marketing.csv";
   "revenue_finance.csv"].

Section loading.
(** The file system and the date parser are the environment's:
    [pd.read_csv] gives the parsed file or raises, [pd.to_datetime]
    converts a column or raises. *)
Variable read_csv : string → result DataFrame.
Variable to_datetime : column → result column.

Fixpoint convert_columns (cols : list (string * column)) : result (list (string * column)) :=
  match cols with
  | [] => Ok []
  | (col, c) :: rest =>
      c' ← (if contains "date" col || contains "timestamp" col
            then to_datetime c else Ok c);
      rest' ← convert_columns rest;
      Ok ((col, c') :: rest')
  end.

Fixpoint load_files (data_dir : string) (files : list string)
         (dataframes : gmap string loc) : M (gmap string loc) :=
  match files with
  | [] => mret dataframes
  | filename :: rest =>
      df ← lift (read_csv (data_dir +:+ filename));
      cols ← lift (convert_columns (map_to_list df));
      l ← alloc (list_to_map cols);
      load_files data_dir rest (<[stem filename := l]> dataframes)
  end.

(** A [FileNotFoundError] is reported on the console and raised again. *)
Definition load_all_data (data_dir : string) : M (gmap string loc) :=
  load_files data_dir files_to_load ∅.

(** [data[name]] *)
Definition dict_get (data : gmap string loc) (name : string) : result loc :=
  match data !! name with
  | Some l => Ok l
  | None => Raise (KeyError name)
  end.

Definition try_body : M report :=
  data ← load_all_data "data/";
  df_mkt ← lift (dict_get data "revenue_marketing");
  df_fin ← lift (dict_get data "revenue_finance");
  df_spend ← lift (dict_get data "marketing_spend");
  df_funnel ← lift (dict_get data "funnel_events");
  reconcile df_mkt df_fin df_spend df_funnel.

(** [try: ... except Exception: return {}] *)
Definition generate_reconciliation_report (h : heap) : heap * report :=
  match try_body h with
  | (h', Ok report) => (h', report)
  | (h', Raise e) => (h', ∅)
  end.
End loading.

(** ** The tables of the data model

    The four input tables with the columns of their schema; every cell may
    be missing. *)

Record spend_row := SpendRow {
  s_date : option Z;
  s_campaign : option string;
  s_spend : option Qc
}.

Record funnel_row := FunnelRow {
  e_timestamp : option Z;
  e_user_id : option string;
  e_event_type : option string
}.

Record mkt_row := MktRow {
  m_date : option Z;
  m_campaign : option string;
  m_user_id : option string;
  m_revenue : option Qc
}.

Record fin_row := FinRow {
  f_date : option Z;
  f_revenue : option Qc
}.

Definition spend_frame (rows : list spend_row) : DataFrame :=
  <["date" := Datetime64 (s_date <$> rows)]>
  (<["campaign" := Object (s_campaign <$> rows)]>
  {["spend" := Float64 (s_spend <$> rows)]}).

Definition funnel_frame (rows : list funnel_row) : DataFrame :=
  <["timestamp" := Datetime64 (e_timestamp <$> rows)]>
  (<["user_id" := Object (e_user_id <$> rows)]>
  {["event_type" := Object (e_event_type <$> rows)]}).

Definition mkt_frame (rows : list mkt_row) : DataFrame :=
  <["date" := Datetime64 (m_date <$> rows)]>
  (<["campaign" := Object (m_campaign <$> rows)]>
  (<["user_id" := Object (m_user_id <$> rows)]>
  {["revenue" := Float64 (m_revenue <$> rows)]})).

Definition fin_frame (rows : list fin_row) : DataFrame :=
  <["date" := Datetime64 (f_date <$> rows)]>
  {["revenue" := Float64 (f_revenue <$> rows)]}.

(** ** Reading the tables row by row

    The notions the properties are stated with. *)

(** The rows at the given positions. *)
Definition select {A} (idx : list nat) (l : list A) : list A :=
  omap (λ i, l !! i) idx.

(** The row pairs of an inner join, as a comprehension over the rows of
    the two tables. *)
Definition row_join {A B} (kl : A → option value) (kr : B → option value)
    (L : list A) (R : list B) : list (A * B) :=
  a ← L; pair a <$> filter (λ b, kl a = kr b) R.

(** The rows of the group of key [k]. *)
Definition group_rows {A} (kf : A → option value) (k : value) (L : list A) : list A :=
  filter (λ a, kf a = Some k) L.

(** *** Spend and revenue per campaign *)

(** The Spend rows of campaign [c], and their total spend. *)
Definition spend_of (S : list spend_row) (c : string) : list spend_row :=
  filter (λ r, s_campaign r = Some c) S.

Definition campaign_spend (S : list spend_row) (c : string) : Qc :=
  nansum (s_spend <$> spend_of S c).

(** The Marketing Revenue rows of campaign [c], and their total revenue. *)
Definition mkt_of (M : list mkt_row) (c : string) : list mkt_row :=
  filter (λ r, m_campaign r = Some c) M.

Definition mkt_revenue_of (M : list mkt_row) (c : string) : Qc :=
  nansum (m_revenue <$> mkt_of M c).

(** The inner join of Marketing Revenue and Finance Revenue on [date] (two
    missing dates match), the pairs whose marketing row has campaign [c],
    and the sum of their finance revenue. *)
Definition date_join (M : list mkt_row) (F : list fin_row) : list (mkt_row * fin_row) :=
  m ← M; pair m <$> filter (λ f, m_date m = f_date f) F.

Definition fin_pairs_of (M : list mkt_row) (F : list fin_row) (c : string)
  : list (mkt_row * fin_row) :=
  filter (λ p, m_campaign p.1 = Some c) (date_join M F).

Definition fin_revenue_of (M : list mkt_row) (F : list fin_row) (c : string) : Qc :=
  nansum ((λ p, f_revenue p.2) <$> fin_pairs_of M F c).

(** The entry of a group in an aggregated Series: absent when the group has
    no row. *)
Definition group_entry {A} (rows : list A) (total : Qc) : option Qc :=
  match rows with
  | [] => None
  | _ :: _ => Some total
  end.

(** One cell of [num / den] after alignment. *)
Definition aligned_div (num den : option Qc) : float :=
  match num, den with
  | Some x, Some y => fdiv x y
  | _, _ => NaN
  end.

(** *** The ROAS statements of the specification, in its words *)

(** "For all campaigns present in Spend with non-zero spend,
    roas_marketing[c] == sum(revenue where campaign==c) / sum(spend where
    campaign==c)." *)
Definition spec_roas_marketing (M : list mkt_row) (F : list fin_row)
    (S : list spend_row) : Prop :=
  ∀ roas_mkt roas_fin c,
    calculate_roas (mkt_frame M) (fin_frame F) (spend_frame S) = Ok (roas_mkt, roas_fin) →
    spend_of S c ≠ [] →
    campaign_spend S c ≠ 0%Qc →
    roas_mkt !! VStr c = Some (Fin (mkt_revenue_of M c / campaign_spend S c)%Qc).

(** "For every campaign the finance-view ROAS equals the finance revenue
    summed over the join pairs of that campaign, divided by the total spend
    of the campaign." *)
Definition spec_roas_finance (M : list mkt_row) (F : list fin_row)
    (S : list spend_row) : Prop :=
  ∀ roas_mkt roas_fin c,
    calculate_roas (mkt_frame M) (fin_frame F) (spend_frame S) = Ok (roas_mkt, roas_fin) →
    is_Some (roas_fin !! VStr c) →
    roas_fin !! VStr c = Some (fdiv (fin_revenue_of M F c) (campaign_spend S c)).

(** "For every campaign appearing in both returned tables, the denominator
    of both ratios is the total spend of that campaign summed over the Spend
    table." *)
Definition spec_roas_denominator (M : list mkt_row) (F : list fin_row)
    (S : list spend_row) : Prop :=
  ∀ roas_mkt roas_fin c,
    calculate_roas (mkt_frame M) (fin_frame F) (spend_frame S) = Ok (roas_mkt, roas_fin) →
    is_Some (roas_mkt !! VStr c) →
    is_Some (roas_fin !! VStr c) →
    roas_mkt !! VStr c
    = Some (aligned_div (group_entry (mkt_of M c) (mkt_revenue_of M c))
                        (Some (campaign_spend S c)))
    ∧ roas_fin !! VStr c
      = Some (aligned_div (group_entry (fin_pairs_of M F c) (fin_revenue_of M F c))
                          (Some (campaign_spend S c))).

(** *** Small tables used as examples *)

Definition day (n : Z) : option Z := Some (n * ns_per_day)%Z.
Definition amount (n : Z) : option Qc := Some (Qc_of_Z n).

(** The scenario of the specification: one campaign, one day. *)
Definition spend_A : list spend_row := [SpendRow (day 1) (Some "A") (amount 100)].
Definition mkt_A : list mkt_row := [MktRow (day 1) (Some "A") (Some "U1") (amount 500)].
Definition fin_A : list fin_row := [FinRow (day 1) (amount 200)].

(** Finance recorded its revenue on another day. *)
Definition fin_other_day : list fin_row := [FinRow (day 2) (amount 30)].

(** Marketing reports a campaign that has no spend. *)
Definition mkt_B : list mkt_row := [MktRow (day 1) (Some "B") (Some "U2") (amount 10)].

(** *** Revenue per date *)





(** The frame [revenue_comp] of two revenue tables. *)
Definition revenue_comp_of (M : list mkt_row) (F : list fin_row) : list comp_row :=
  outer_merge_fillna
    (group_sum (option_map VTime <$> (m_date <$> M)) (m_revenue <$> M))
    (group_sum (option_map VTime <$> (f_date <$> F)) (f_revenue <$> F)).



(** *** Spend statistics *)

(** The thresholds [mean + 2 * std] with the sample standard deviation
    ([ddof=1]) and with the population standard deviation ([ddof=0]). *)
Definition sample_threshold (S : list spend_row) : option threshold :=
  m ← mean (s_spend <$> S); v ← var 1 (s_spend <$> S); Some (Threshold m v).


(** The Outlier Spend anomaly of a Spend row. *)
Definition outlier_of (r : spend_row) : anomaly :=
  Anomaly (option_map VTime (s_date r)) OutlierSpend
          (Spend (default 0%Qc (s_spend r))) High.


(** *** The anomaly statements of the specification, in its words *)


(** The spend series of the scenario of the specification, and a series on
    which the two standard deviations decide differently. *)
Definition spend_on_day_1 (n : Z) : spend_row := SpendRow (day 1) (Some "A") (amount n).

Definition spend_scenario : list spend_row :=
  spend_on_day_1 <$> [100; 100; 100; 100; 1000]%Z.


(** *** Customers per campaign *)

(** The day of an event, as the join key. *)
Definition event_date (e : funnel_row) : option Z := option_map to_date (e_timestamp e).

(** The checkout events that the date join attributes to campaign [c]:
    those on a day on which the campaign has a Spend row. *)
Definition attributed (S : list spend_row) (E : list funnel_row) (c : string)
  : list funnel_row :=
  filter (λ e, e_event_type e = Some "checkout"
               ∧ Exists (λ s, s_campaign s = Some c ∧ s_date s = event_date e) S) E.

(** The distinct users of a list of events. *)
Definition users (evs : list funnel_row) : gset string :=
  list_to_set (omap e_user_id evs).

(** "The CAC table never contains a campaign with customers == 0." *)
Definition spec_cac_customers (S : list spend_row) (E : list funnel_row) : Prop :=
  ∀ h h' df_spend df_funnel cac_df k row,
    df_spend ≠ df_funnel →
    h !! df_spend = Some (spend_frame S) →
    h !! df_funnel = Some (funnel_frame E) →
    calculate_cac df_spend df_funnel h = (h', Ok cac_df) →
    cac_df !! k = Some row →
    customers row ≠ 0.

(** A checkout of a known user, and one without a user id. *)
Definition funnel_U1 : list funnel_row :=
  [FunnelRow (Some (1 * ns_per_day + 3600000000000)%Z) (Some "U1") (Some "checkout")].

Definition funnel_anonymous : list funnel_row :=
  [FunnelRow (Some (1 * ns_per_day + 3600000000000)%Z) None (Some "checkout")].

(** A heap holding a Spend frame and a Funnel frame. *)
Definition two_frames (S : list spend_row) (E : list funnel_row) : heap :=
  <[1%positive := spend_frame S]> {[2%positive := funnel_frame E]}.

(** The key of a Spend row in [daily_campaigns], and the rows that
    [drop_duplicates] keeps. *)
Definition daily_key (s : spend_row) : option value * option value :=
  (option_map VTime (s_date s), option_map VStr (s_campaign s)).

Definition daily_rows (S : list spend_row) : list spend_row :=
  select (first_occurrences (daily_key <$> S)) S.

(** The pairs of the join of the events with [daily_campaigns], and those
    of a checkout. *)
Definition event_pairs (E : list funnel_row) (DC : list spend_row)
  : list (funnel_row * spend_row) :=
  row_join (option_map VTime ∘ event_date) (option_map VTime ∘ s_date) E DC.

Definition is_checkout (p : funnel_row * spend_row) : bool :=
  bool_decide (option_map VStr (e_event_type p.1) = Some (VStr "checkout")).

(** *** The date of an event *)

(** [d] is the midnight that begins the calendar day of the timestamp [t]:
    a whole number of days since the epoch, at most [t] and less than a day
    before it. *)
Definition midnight_of (t d : Z) : Prop :=
  (d `mod` ns_per_day = 0)%Z ∧ (d ≤ t < d + ns_per_day)%Z.

(** A cell of the date column against the cell of the timestamp column: the
    timestamp truncated to its day, a missing timestamp giving a missing
    date. *)
Definition truncated (t d : option Z) : Prop :=
  match t, d with
  | Some t, Some d => midnight_of t d
  | None, None => True
  | _, _ => False
  end.

(** *** The shape of a report *)




(** An environment in which the four files exist, with the scenario of the
    specification, one in which the spend file is missing, and one in which
    the revenue columns have other names. *)
Definition parse_dates (c : column) : result column :=
  match c with
  | Datetime64 ts => Ok (Datetime64 ts)
  | _ => Raise ValueError
  end.

Definition files_scenario (path : string) : result DataFrame :=
  if decide (path = "data/marketing_spend.csv") then Ok (spend_frame spend_A)
  else if decide (path = "data/funnel_events.csv") then Ok (funnel_frame funnel_U1)
  else if decide (path = "data/revenue_marketing.csv") then Ok (mkt_frame mkt_A)
  else if decide (path = "data/revenue_finance.csv") then Ok (fin_frame fin_A)
  else Raise (FileNotFoundError path).

Definition files_without_spend (path : string) : result DataFrame :=
  if decide (path = "data/marketing_spend.csv") then Raise (FileNotFoundError path)
  else files_scenario path.

Definition files_renamed (path : string) : result DataFrame :=
  if decide (path = "data/revenue_finance.csv")
  then Ok (<["date" := Datetime64 [day 1]]> {["actual_revenue" := Float64 [amount 200]]})
  else files_scenario path.

(** ** Further notions *)

(** The finance revenue recorded on the date of a marketing row; two
    missing dates match. *)
Definition fin_at (F : list fin_row) (d : option Z) : Qc :=
  nansum (f_revenue <$> filter (λ f, d = f_date f) F).

(** A spend table with one row of zero spend. *)
Definition spend_zero : list spend_row := [SpendRow (day 1) (Some "A") (amount 0)].

(** The float [x / 0]. *)
Definition div_by_zero (x : Qc) : float :=
  if decide (x = 0%Qc) then NaN
  else if decide (0 < x)%Qc then PosInf else NegInf.

(** Two marketing rows of one campaign on one day. *)
Definition mkt_A_twice : list mkt_row :=
  [MktRow (day 1) (Some "A") (Some "U1") (amount 500);
   MktRow (day 1) (Some "A") (Some "U2") (amount 50)].

(** A finance frame whose revenue column has another name. *)
Definition fin_renamed (F : list fin_row) : DataFrame :=
  <["date" := Datetime64 (f_date <$> F)]>
  {["actual_revenue" := Float64 (f_revenue <$> F)]}.

(** Two campaigns with spend on the same day. *)
Definition spend_A_B : list spend_row :=
  [SpendRow (day 1) (Some "A") (amount 100); SpendRow (day 1) (Some "B") (amount 30)].

(** The scenario of the specification with one more ordinary day: six
    spend values, the last one far above the others. *)
Definition spend_spike : list spend_row :=
  spend_on_day_1 <$> [100; 100; 100; 100; 100; 1000]%Z.

(** A column whose name marks it as a date: ['date' in col or 'timestamp' in
    col]. *)
Definition date_like (col : string) : bool :=
  contains "date" col || contains "timestamp" col.

(** One round of the loop of [load_all_data]: the file is read and its
    date-like columns are converted. *)
Definition load_frame (read_csv : string → result DataFrame)
    (to_datetime : column → result column) (data_dir filename : string)
  : result DataFrame :=
  df ← read_csv (data_dir +:+ filename);
  cols ← convert_columns to_datetime (map_to_list df);
  Ok (list_to_map cols).

(** Twelve ordinary days and two days of high spend. *)
Definition spend_two_spikes : list spend_row :=
  spend_on_day_1 <$> [100; 100; 100; 100; 100; 100; 100; 100; 100; 100; 100; 100;
                      1000; 1100]%Z.

(** * Properties *)

(** ** Positions and selections *)

Section positions.
Context {A B : Type}.
Implicit Types (L : list A) (idx : list nat).

Lemma take_list_app idx1 idx2 (xs : list (option B)) :
  take_list (idx1 ++ idx2) xs = take_list idx1 xs ++ take_list idx2 xs.
Proof. unfold take_list. by rewrite fmap_app. Qed.

Lemma take_list_S idx (x : option B) xs :
  take_list (S <$> idx) (x :: xs) = take_list idx xs.
Proof. unfold take_list. rewrite <-list_fmap_compose. by apply list_fmap_ext. Qed.

Lemma where_true_filter (p : A → bool) (g : A → option B) L :
  take_list (where_true (p <$> L)) (g <$> L) = g <$> filter (λ a, p a) L.
Proof.
  induction L as [|a L IH]; [done|].
  cbn [fmap list_fmap where_true]. rewrite take_list_app, take_list_S, IH.
  rewrite filter_cons. by destruct (p a).
Qed.

Lemma where_true_const {C} (p : A → bool) (c : C) L :
  (λ _, c) <$> where_true (p <$> L) = (λ _, c) <$> filter (λ a, p a) L.
Proof.
  induction L as [|a L IH]; [done|].
  cbn [fmap list_fmap where_true]. rewrite fmap_app, <-list_fmap_compose.
  rewrite filter_cons. destruct (p a); simpl; [f_equal|]; apply IH.
Qed.
End positions.


(** ** Joins *)

Section joins.
Context {A B C : Type}.
Variables (kl : A → option value) (kr : B → option value).

Lemma row_join_cons a (L : list A) (R : list B) :
  row_join kl kr (a :: L) R
  = (pair a <$> filter (λ b, kl a = kr b) R) ++ row_join kl kr L R.
Proof. done. Qed.

Lemma filter_bool_decide (a : A) (R : list B) :
  filter (λ b, bool_decide (kl a = kr b)) R = filter (λ b, kl a = kr b) R.
Proof.
  apply list_filter_iff. intros b. by rewrite bool_decide_spec.
Qed.

Lemma join_take_l (f : A → option C) (L : list A) (R : list B) :
  take_list (join_pairs (kl <$> L) (kr <$> R)).*1 (f <$> L)
  = (λ p, f p.1) <$> row_join kl kr L R.
Proof.
  induction L as [|a L IH]; [done|].
  rewrite row_join_cons, !fmap_cons. cbn [join_pairs].
  rewrite !fmap_app, take_list_app. f_equal.
  - rewrite <-!list_fmap_compose. unfold take_list. rewrite <-list_fmap_compose.
    rewrite <-filter_bool_decide.
    apply (where_true_const (λ b, bool_decide (kl a = kr b)) (f a) R).
  - rewrite <-IH, <-list_fmap_compose.
    rewrite (list_fmap_ext (fst ∘ prod_map S id) (S ∘ fst) (join_pairs (kl <$> L) (kr <$> R)))
      by (by intros ? []).
    rewrite list_fmap_compose. apply take_list_S.
Qed.

Lemma join_take_r (g : B → option C) (L : list A) (R : list B) :
  take_list (join_pairs (kl <$> L) (kr <$> R)).*2 (g <$> R)
  = (λ p, g p.2) <$> row_join kl kr L R.
Proof.
  induction L as [|a L IH]; [done|].
  rewrite row_join_cons, !fmap_cons. cbn [join_pairs].
  rewrite !fmap_app, take_list_app. f_equal.
  - rewrite <-!list_fmap_compose, <-filter_bool_decide.
    rewrite (list_fmap_ext (snd ∘ pair 0) id (where_true _)) by done.
    rewrite list_fmap_id.
    apply (where_true_filter (λ b, bool_decide (kl a = kr b)) g R).
  - rewrite <-IH, <-list_fmap_compose.
    by rewrite (list_fmap_ext (snd ∘ prod_map S id) snd (join_pairs (kl <$> L) (kr <$> R)))
      by (by intros ? []).
Qed.

Lemma elem_of_row_join a b (L : list A) (R : list B) :
  (a, b) ∈ row_join kl kr L R ↔ a ∈ L ∧ b ∈ R ∧ kl a = kr b.
Proof.
  unfold row_join. rewrite list_elem_of_bind. split.
  - intros (a' & Hin & Ha'). apply list_elem_of_fmap in Hin as (b' & Heq & Hb').
    apply list_elem_of_filter in Hb' as [Hk Hb']. by simplify_eq.
  - intros (Ha & Hb & Hk). exists a. split; [|done].
    apply list_elem_of_fmap. exists b. split; [done|].
    by apply list_elem_of_filter.
Qed.
End joins.

(** ** Group-by on rows *)

Section groups.
Context {A : Type}.
Variables (kf : A → option value).

Lemma group_rows_cons k a L :
  group_rows kf k (a :: L)
  = if decide (kf a = Some k) then a :: group_rows kf k L else group_rows kf k L.
Proof. unfold group_rows. by rewrite filter_cons. Qed.

Lemma group_rows_nil k L :
  group_rows kf k L = [] ↔ ∀ a, a ∈ L → kf a ≠ Some k.
Proof.
  unfold group_rows. split.
  - intros Hnil a Ha Hk.
    assert (a ∈ filter (λ a, kf a = Some k) L) as Hin by by apply list_elem_of_filter.
    rewrite Hnil in Hin. by apply not_elem_of_nil in Hin.
  - intros Hall. induction L as [|a L IH]; [done|].
    rewrite filter_cons. rewrite decide_False by (apply Hall; left).
    apply IH. intros b Hb. apply Hall. by right.
Qed.

Lemma group_sum_rows (vf : A → option Qc) (L : list A) k :
  group_sum (kf <$> L) (vf <$> L) !! k
  = match group_rows kf k L with
    | [] => None
    | rows => Some (nansum (vf <$> rows))
    end.
Proof.
  induction L as [|a L IH]; [done|].
  rewrite group_rows_cons. cbn [fmap list_fmap zip zip_with group_sum foldr].
  fold (group_sum (kf <$> L) (vf <$> L)).
  destruct (kf a) as [kv|] eqn:Hk.
  - destruct (decide (kv = k)) as [->|Hne].
    + rewrite decide_True by done. rewrite lookup_insert_eq, IH.
      by destruct (group_rows kf k L).
    + rewrite decide_False by congruence. by rewrite lookup_insert_ne.
  - by rewrite decide_False.
Qed.

Lemma group_sets_rows (vf : A → option value) (L : list A) k :
  group_sets (kf <$> L) (vf <$> L) !! k
  = match group_rows kf k L with
    | [] => None
    | rows => Some (list_to_set (omap vf rows))
    end.
Proof.
  induction L as [|a L IH]; [done|].
  rewrite group_rows_cons. cbn [fmap list_fmap zip zip_with group_sets foldr].
  fold (group_sets (kf <$> L) (vf <$> L)).
  destruct (kf a) as [kv|] eqn:Hk.
  - destruct (decide (kv = k)) as [->|Hne].
    + rewrite decide_True by done. rewrite lookup_insert_eq, IH.
      destruct (group_rows kf k L) as [|b rows]; f_equal;
        cbn [omap list_omap default]; destruct (vf a); set_solver.
    + rewrite decide_False by congruence. by rewrite lookup_insert_ne.
  - by rewrite decide_False.
Qed.
End groups.

Lemma series_div_lookup (num den : Series Qc) k :
  series_div num den !! k
  = match num !! k, den !! k with
    | Some x, Some y => Some (fdiv x y)
    | None, None => None
    | _, _ => Some NaN
    end.
Proof.
  unfold series_div. rewrite lookup_merge.
  by destruct (num !! k), (den !! k).
Qed.

(** ** calculate_roas on the tables of the data model *)

Lemma option_map_inj_iff {A B} (f : A → B) `{!Inj (=) (=) f} (x : option A) (y : A) :
  option_map f x = Some (f y) ↔ x = Some y.
Proof. destruct x; simpl; split; intros; simplify_eq; done. Qed.

#[global] Instance VStr_inj : Inj (=) (=) VStr.
Proof. intros ?? [=]. done. Qed.
#[global] Instance VTime_inj : Inj (=) (=) VTime.
Proof. intros ?? [=]. done. Qed.

Lemma option_map_eq_iff {A B} (f : A → B) `{!Inj (=) (=) f} (x y : option A) :
  option_map f x = option_map f y ↔ x = y.
Proof. destruct x, y; simpl; split; intros; simplify_eq; done. Qed.

Lemma spend_group S c :
  group_rows (option_map VStr ∘ s_campaign) (VStr c) S = spend_of S c.
Proof. apply list_filter_iff. intros r. apply option_map_inj_iff, _. Qed.

Lemma mkt_group M c :
  group_rows (option_map VStr ∘ m_campaign) (VStr c) M = mkt_of M c.
Proof. apply list_filter_iff. intros r. apply option_map_inj_iff, _. Qed.

Lemma date_join_rows M F :
  row_join (option_map VTime ∘ m_date) (option_map VTime ∘ f_date) M F
  = date_join M F.
Proof.
  unfold row_join, date_join. induction M as [|m M IH]; [done|].
  cbn [mbind list_bind]. rewrite IH. f_equal. f_equal.
  apply list_filter_iff. intros f. apply option_map_eq_iff, _.
Qed.

Lemma fin_group M F c :
  group_rows (option_map VStr ∘ m_campaign ∘ fst) (VStr c)
    (date_join M F)
  = fin_pairs_of M F c.
Proof. apply list_filter_iff. intros r. apply option_map_inj_iff, _. Qed.

Lemma calculate_roas_eval M F S :
  calculate_roas (mkt_frame M) (fin_frame F) (spend_frame S)
  = let spend_by_channel :=
      group_sum (option_map VStr <$> (s_campaign <$> S)) (s_spend <$> S) in
    let mkt_revenue_by_channel :=
      group_sum (option_map VStr <$> (m_campaign <$> M)) (m_revenue <$> M) in
    let idx := join_pairs (option_map VTime <$> (m_date <$> M))
                          (option_map VTime <$> (f_date <$> F)) in
    let fin_revenue_by_channel :=
      group_sum (option_map VStr <$> take_list idx.*1 (m_campaign <$> M))
                (take_list idx.*2 (f_revenue <$> F)) in
    Ok (series_div mkt_revenue_by_channel spend_by_channel,
        series_div fin_revenue_by_channel spend_by_channel).
Proof. reflexivity. Qed.

(** The two ROAS tables, entry by entry. *)
Lemma calculate_roas_tables M F S :
  ∃ roas_mkt roas_fin,
    calculate_roas (mkt_frame M) (fin_frame F) (spend_frame S) = Ok (roas_mkt, roas_fin)
    ∧ (∀ c, roas_mkt !! VStr c
            = match group_entry (mkt_of M c) (mkt_revenue_of M c),
                    group_entry (spend_of S c) (campaign_spend S c) with
              | None, None => None
              | num, den => Some (aligned_div num den)
              end)
    ∧ (∀ c, roas_fin !! VStr c
            = match group_entry (fin_pairs_of M F c) (fin_revenue_of M F c),
                    group_entry (spend_of S c) (campaign_spend S c) with
              | None, None => None
              | num, den => Some (aligned_div num den)
              end).
Proof.
  rewrite calculate_roas_eval. cbv zeta. eexists _, _. split; [reflexivity|].
  split; intros c; rewrite series_div_lookup.
  - rewrite <-!list_fmap_compose.
    rewrite (group_sum_rows (option_map VStr ∘ m_campaign) m_revenue).
    rewrite (group_sum_rows (option_map VStr ∘ s_campaign) s_spend).
    rewrite mkt_group, spend_group.
    unfold mkt_revenue_of, campaign_spend.
    by destruct (mkt_of M c), (spend_of S c).
  - rewrite <-!list_fmap_compose.
    rewrite (group_sum_rows (option_map VStr ∘ s_campaign) s_spend), spend_group.
    rewrite (join_take_l (option_map VTime ∘ m_date) (option_map VTime ∘ f_date)
               m_campaign M F).
    rewrite (join_take_r (option_map VTime ∘ m_date) (option_map VTime ∘ f_date)
               f_revenue M F).
    rewrite date_join_rows, <-list_fmap_compose.
    change (λ p : mkt_row * fin_row, m_campaign p.1) with (m_campaign ∘ (fst : mkt_row * fin_row → mkt_row)).
    rewrite (group_sum_rows (option_map VStr ∘ m_campaign ∘ fst)
               (λ p, f_revenue p.2)).
    rewrite fin_group. unfold fin_revenue_of, campaign_spend.
    by destruct (fin_pairs_of M F c), (spend_of S c).
Qed.


(** ** The ROAS tables *)

(** Decides a closed decidable proposition by evaluation. *)
Ltac by_compute :=
  match goal with
  | |- ?P => apply (bool_decide_unpack P); vm_compute; exact I
  end.

Lemma fdiv_finite x y : y ≠ 0%Qc → fdiv x y = Fin (x / y)%Qc.
Proof. intros Hy. unfold fdiv. by rewrite decide_False. Qed.

(** C7, as amended: for every campaign that has a row in Spend and a row in
    Marketing Revenue and whose total spend is not zero, the marketing-view
    ROAS is the total marketing revenue of the campaign divided by its total
    spend. *)
Theorem roas_marketing_is_ratio M F S c :
  spend_of S c ≠ [] →
  mkt_of M c ≠ [] →
  campaign_spend S c ≠ 0%Qc →
  ∃ roas_mkt roas_fin,
    calculate_roas (mkt_frame M) (fin_frame F) (spend_frame S) = Ok (roas_mkt, roas_fin)
    ∧ roas_mkt !! VStr c = Some (Fin (mkt_revenue_of M c / campaign_spend S c)%Qc).
Proof.
  intros HS HM Hne.
  destruct (calculate_roas_tables M F S) as (rm & rf & Hcalc & Hm & _).
  exists rm, rf. split; [exact Hcalc|]. clear Hcalc.
  rewrite Hm. destruct (mkt_of M c); [congruence|]. destruct (spend_of S c); [congruence|].
  simpl. by rewrite fdiv_finite.
Qed.

Lemma roas_marketing_is_ratio_witness :
  ∃ roas_mkt roas_fin,
    calculate_roas (mkt_frame mkt_A) (fin_frame fin_A) (spend_frame spend_A)
    = Ok (roas_mkt, roas_fin)
    ∧ roas_mkt !! VStr "A"
      = Some (Fin (mkt_revenue_of mkt_A "A" / campaign_spend spend_A "A")%Qc).
Proof.
  apply (roas_marketing_is_ratio mkt_A fin_A spend_A "A").
  - vm_compute. discriminate.
  - vm_compute. discriminate.
  - by_compute.
Defined.

(** C7 as the specification states it fails: a campaign with spend and no
    marketing revenue row has the ROAS [NaN], not 0. *)
Lemma roas_marketing_without_revenue : ¬ spec_roas_marketing [] [] spend_A.
Proof.
  intros Hspec.
  destruct (calculate_roas_tables [] [] spend_A) as (rm & rf & Hcalc & Hm & _).
  specialize (Hspec rm rf "A" Hcalc). clear Hcalc.
  rewrite Hm in Hspec.
  assert (spend_of spend_A "A" ≠ []) as H1 by (vm_compute; discriminate).
  assert (campaign_spend spend_A "A" ≠ 0%Qc) as H2 by by_compute.
  specialize (Hspec H1 H2). vm_compute in Hspec. discriminate.
Qed.

(** C2, as amended: the finance-view ROAS of a campaign is the finance
    revenue summed over the pairs of the date join whose marketing row has
    that campaign, divided by the total spend of the campaign, when the
    campaign has such a pair and a Spend row; it is [NaN] when it has only
    one of the two, and the campaign is absent from the table when it has
    neither. *)
Theorem roas_finance_by_join M F S :
  ∃ roas_mkt roas_fin,
    calculate_roas (mkt_frame M) (fin_frame F) (spend_frame S) = Ok (roas_mkt, roas_fin)
    ∧ ∀ c, roas_fin !! VStr c
           = match fin_pairs_of M F c, spend_of S c with
             | [], [] => None
             | _ :: _, _ :: _ => Some (fdiv (fin_revenue_of M F c) (campaign_spend S c))
             | _, _ => Some NaN
             end.
Proof.
  destruct (calculate_roas_tables M F S) as (rm & rf & Hcalc & _ & Hf).
  exists rm, rf. split; [exact Hcalc|]. clear Hcalc. intros c. rewrite Hf.
  by destruct (fin_pairs_of M F c), (spend_of S c).
Qed.

(** C2 as the specification states it fails: a campaign with spend whose
    marketing rows meet no finance row on their date has the ROAS [NaN],
    not 0 divided by its spend. *)
Lemma roas_finance_without_pair : ¬ spec_roas_finance mkt_A fin_other_day spend_A.
Proof.
  intros Hspec.
  destruct (calculate_roas_tables mkt_A fin_other_day spend_A)
    as (rm & rf & Hcalc & _ & Hf).
  specialize (Hspec rm rf "A" Hcalc). clear Hcalc. rewrite Hf in Hspec.
  vm_compute in Hspec. specialize (Hspec (ltac:(eauto))). discriminate.
Qed.

(** C5, as amended: for every campaign appearing in both returned tables,
    both ratios are taken over the same denominator, the entry of the
    campaign in the spend-by-campaign Series: the total spend of the
    campaign when it has a Spend row, and a missing value, which makes both
    ratios [NaN], when it has none. *)
Theorem roas_shared_denominator M F S :
  ∃ roas_mkt roas_fin,
    calculate_roas (mkt_frame M) (fin_frame F) (spend_frame S) = Ok (roas_mkt, roas_fin)
    ∧ ∀ c, is_Some (roas_mkt !! VStr c) → is_Some (roas_fin !! VStr c) →
        let den := group_entry (spend_of S c) (campaign_spend S c) in
        roas_mkt !! VStr c
        = Some (aligned_div (group_entry (mkt_of M c) (mkt_revenue_of M c)) den)
        ∧ roas_fin !! VStr c
          = Some (aligned_div (group_entry (fin_pairs_of M F c) (fin_revenue_of M F c)) den).
Proof.
  destruct (calculate_roas_tables M F S) as (rm & rf & Hcalc & Hm & Hf).
  exists rm, rf. split; [exact Hcalc|]. clear Hcalc. intros c. rewrite Hm, Hf.
  destruct (mkt_of M c), (fin_pairs_of M F c), (spend_of S c); simpl;
    intros [? ?] [? ?]; done.
Qed.

Lemma roas_shared_denominator_witness :
  ∃ roas_mkt roas_fin,
    calculate_roas (mkt_frame mkt_A) (fin_frame fin_A) (spend_frame spend_A)
    = Ok (roas_mkt, roas_fin)
    ∧ roas_mkt !! VStr "A" = Some (fdiv (mkt_revenue_of mkt_A "A") (campaign_spend spend_A "A"))
    ∧ roas_fin !! VStr "A"
      = Some (fdiv (fin_revenue_of mkt_A fin_A "A") (campaign_spend spend_A "A")).
Proof.
  destruct (roas_shared_denominator mkt_A fin_A spend_A) as (rm & rf & Hcalc & Hden).
  exists rm, rf. split; [exact Hcalc|].
  destruct (calculate_roas_tables mkt_A fin_A spend_A) as (rm' & rf' & Hcalc' & Hm & Hf).
  rewrite Hcalc in Hcalc'. injection Hcalc' as <- <-. clear Hcalc.
  apply (Hden "A").
  - rewrite Hm. vm_compute. eauto.
  - rewrite Hf. vm_compute. eauto.
Defined.

(** C5 as the specification states it fails: for a campaign of Marketing
    Revenue without a Spend row the code divides by a missing value and gives
    [NaN], where a division by the total spend, 0, gives an infinity. *)
Lemma roas_denominator_without_spend : ¬ spec_roas_denominator mkt_B fin_A [].
Proof.
  intros Hspec.
  destruct (calculate_roas_tables mkt_B fin_A []) as (rm & rf & Hcalc & Hm & Hf).
  specialize (Hspec rm rf "B" Hcalc). clear Hcalc. rewrite Hm, Hf in Hspec.
  vm_compute in Hspec.
  destruct Hspec as [Hspec _]; [eauto|eauto|]. discriminate.
Qed.

(** ** Rationals as reals *)

Lemma Q2R_Qc_mult (x y : Qc) : Q2R (x * y)%Qc = (Q2R x * Q2R y)%R.
Proof.
  rewrite <-Q2R_mult. apply Qeq_eqR. simpl. apply Qred_correct.
Qed.

Lemma Q2R_Qc_minus (x y : Qc) : Q2R (x - y)%Qc = (Q2R x - Q2R y)%R.
Proof.
  rewrite <-Q2R_minus. apply Qeq_eqR. unfold Qcminus, Qcopp. simpl.
  rewrite !Qred_correct. reflexivity.
Qed.

Lemma Q2R_Qc_lt (x y : Qc) : (x < y)%Qc ↔ (Q2R x < Q2R y)%R.
Proof. split; [apply Qlt_Rlt | apply Rlt_Qlt]. Qed.

Lemma Q2R_Qc_le (x y : Qc) : (x ≤ y)%Qc ↔ (Q2R x <= Q2R y)%R.
Proof. split; [apply Qle_Rle | apply Rle_Qle]. Qed.

Lemma Q2R_Qc_0 : Q2R 0%Qc = 0%R.
Proof. unfold Q2R. simpl. lra. Qed.

Lemma Q2R_Qc_4 : Q2R (Qc_of_Z 4) = 4%R.
Proof. unfold Q2R. simpl. lra. Qed.

(** [a + 2 * sqrt b < c] without the square root. *)
Lemma sqrt_threshold (a b c : R) :
  (0 <= b)%R →
  (a + 2 * sqrt b < c)%R ↔ (a < c ∧ 4 * b < (c - a) * (c - a))%R.
Proof.
  intros Hb.
  pose proof (sqrt_pos b) as Hs. pose proof (sqrt_sqrt b Hb) as Hss.
  split.
  - intros Hlt. split; [lra|]. nra.
  - intros [Hac Hsq]. destruct (Rlt_le_dec (a + 2 * sqrt b) c) as [|Hge]; [done|].
    exfalso. nra.
Qed.

(** [exceeds] decides the comparison with the threshold. *)
Lemma exceeds_spec (x : Qc) (t : threshold) :
  (0 ≤ th_var t)%Qc →
  exceeds x t = true ↔ (threshold_value t < Q2R x)%R.
Proof.
  intros Hv. unfold exceeds, threshold_value.
  rewrite andb_true_iff, !bool_decide_eq_true.
  rewrite sqrt_threshold.
  - rewrite !Q2R_Qc_lt, Q2R_Qc_mult, Q2R_Qc_mult, Q2R_Qc_minus, Q2R_Qc_4. done.
  - apply Q2R_Qc_le in Hv. by rewrite Q2R_Qc_0 in Hv.
Qed.

(** ** Spend statistics *)

Lemma Qcsquare_nonneg (x : Qc) : (0 ≤ x * x)%Qc.
Proof.
  destruct (Qclt_le_dec x 0) as [Hneg|Hpos].
  - replace (x * x)%Qc with ((- x) * (- x))%Qc by ring.
    assert (0 ≤ - x)%Qc as Hx.
    { apply Qclt_le_weak in Hneg. apply Qcle_minus_iff in Hneg.
      by rewrite Qcplus_0_l in Hneg. }
    by apply Qcmult_nonneg_nonneg.
  - by apply Qcmult_nonneg_nonneg.
Qed.

Lemma sum_sq_dev_nonneg m ys : (0 ≤ sum_sq_dev m ys)%Qc.
Proof.
  unfold sum_sq_dev. induction ys as [|y ys IH]; [done|].
  simpl. apply Qcplus_nonneg_nonneg; [apply Qcsquare_nonneg | apply IH].
Qed.

Lemma var_nonneg ddof xs v : var ddof xs = Some v → (0 ≤ v)%Qc.
Proof.
  unfold var. destruct (mean xs) as [m|]; [|done]. simpl.
  case_decide as Hlen; [done|]. intros [= <-].
  apply Qcmult_nonneg_nonneg; [apply sum_sq_dev_nonneg|].
  apply Qclt_le_weak, Qcinv_pos.
  unfold Qc_of_nat. rewrite <-Z2Qc_inj_0. apply (proj1 (Z2Qc_inj_lt 0 _)). lia.
Qed.

(** A cell exceeds a threshold of non-negative variance exactly when the
    real inequality holds. *)
Lemma gt_threshold_spec (x : option Qc) (t : option threshold) :
  (∀ th, t = Some th → (0 ≤ th_var th)%Qc) →
  gt_threshold x t = true
  ↔ ∃ y th, x = Some y ∧ t = Some th ∧ (threshold_value th < Q2R y)%R.
Proof.
  intros Hv. destruct x as [y|], t as [th|]; simpl.
  - rewrite exceeds_spec by by apply Hv. split; [by eauto|].
    by intros (? & ? & [= ->] & [= ->] & ?).
  - split; [done|]. by intros (? & ? & ? & ? & ?).
  - split; [done|]. by intros (? & ? & ? & ? & ?).
  - split; [done|]. by intros (? & ? & ? & ? & ?).
Qed.

Lemma sample_threshold_var S th :
  sample_threshold S = Some th → (0 ≤ th_var th)%Qc.
Proof.
  unfold sample_threshold. destruct (mean _) as [m|]; [|done]. simpl.
  destruct (var 1 _) as [v|] eqn:Hvar; [|done]. intros [= <-].
  by eapply var_nonneg.
Qed.


(** ** The three rules of detect_misreporting *)

Lemma where_true_lookup {A C} (p : A → bool) (h : option A → C) (L : list A) :
  (λ i, h (L !! i)) <$> where_true (p <$> L) = (λ a, h (Some a)) <$> filter (λ a, p a) L.
Proof.
  induction L as [|a L IH]; [done|].
  cbn [fmap list_fmap where_true]. rewrite fmap_app, <-list_fmap_compose.
  rewrite filter_cons. destruct (p a); simpl; [f_equal|]; apply IH.
Qed.

Lemma outlier_spend_rows S :
  outlier_spend (spend_frame S)
  = Ok (outlier_of <$> filter (λ r, gt_threshold (s_spend r) (sample_threshold S)) S).
Proof.
  transitivity (
    let spend := s_spend <$> S in
    let outliers :=
      where_true ((λ x, gt_threshold x (outlier_threshold spend)) <$> spend) in
    Ok ((λ i, Anomaly (default None ((option_map VTime <$> (s_date <$> S)) !! i))
                OutlierSpend (Spend (default 0%Qc (default None (spend !! i)))) High)
          <$> outliers)).
  - unfold outlier_spend. 
    change (getitem (spend_frame S) "spend" ≫= as_float64) with (Ok (s_spend <$> S)).
    cbn [mbind result_bind].
    by destruct (where_true _).
  - cbv zeta. f_equal.
    change (outlier_threshold (s_spend <$> S)) with (sample_threshold S).
    rewrite <-(list_fmap_compose s_spend).
    change ((λ x, gt_threshold x (sample_threshold S)) ∘ s_spend)
      with (λ r, gt_threshold (s_spend r) (sample_threshold S)).
    pose (h := λ o : option spend_row,
            Anomaly (o ≫= (λ r, option_map VTime (s_date r))) OutlierSpend
              (Spend (default 0%Qc (o ≫= s_spend))) High).
    trans ((λ i, h (S !! i))
             <$> where_true ((λ r, gt_threshold (s_spend r) (sample_threshold S)) <$> S)).
    + apply list_fmap_ext. intros i j _. unfold h.
      rewrite !list_lookup_fmap. by destruct (S !! j).
    + by rewrite where_true_lookup.
Qed.

(** ** The merged revenue frame *)








Lemma detect_misreporting_tables M F S :
  detect_misreporting (mkt_frame M) (fin_frame F) (spend_frame S)
  = Ok (revenue_inflation (revenue_comp_of M F)
        ++ missing_invoices (revenue_comp_of M F)
        ++ (outlier_of <$> filter (λ r, gt_threshold (s_spend r) (sample_threshold S)) S)).
Proof.
  trans (anomalies3 ← outlier_spend (spend_frame S);
         Ok (revenue_inflation (revenue_comp_of M F)
             ++ missing_invoices (revenue_comp_of M F) ++ anomalies3)).
  - reflexivity.
  - by rewrite outlier_spend_rows.
Qed.

(** ** The anomalies *)

Lemma elem_of_revenue_inflation rc a :
  a ∈ revenue_inflation rc
  ↔ ∃ row, row ∈ rc ∧ (0 < fin_revenue row)%Qc ∧ (Q2Qc (2 # 10) < variance row)%Qc
           ∧ a = Anomaly (Some (comp_date row)) RevenueInflation (Variance (variance row))
                   (if decide (Q2Qc (5 # 10) < variance row)%Qc then Critical else High).
Proof.
  unfold revenue_inflation. rewrite list_elem_of_fmap.
  setoid_rewrite list_elem_of_filter. setoid_rewrite list_elem_of_filter.
  naive_solver.
Qed.

Lemma elem_of_missing_invoices rc a :
  a ∈ missing_invoices rc
  ↔ ∃ row, row ∈ rc ∧ fin_revenue row = 0%Qc ∧ (0 < mkt_revenue row)%Qc
           ∧ a = Anomaly (Some (comp_date row)) MissingInvoice
                   (MktRevenue (mkt_revenue row)) High.
Proof.
  unfold missing_invoices. rewrite list_elem_of_fmap.
  setoid_rewrite list_elem_of_filter. naive_solver.
Qed.

(** The anomalies of one type come from one rule. *)
Lemma elem_of_anomalies rc (S : list spend_row) (P : spend_row → Prop)
    `{∀ r, Decision (P r)} a :
  a ∈ revenue_inflation rc ++ missing_invoices rc ++ (outlier_of <$> filter P S)
  ↔ (anomaly_type a = RevenueInflation ∧ a ∈ revenue_inflation rc)
    ∨ (anomaly_type a = MissingInvoice ∧ a ∈ missing_invoices rc)
    ∨ (anomaly_type a = OutlierSpend ∧ ∃ r, r ∈ S ∧ P r ∧ a = outlier_of r).
Proof.
  rewrite !elem_of_app, list_elem_of_fmap.
  setoid_rewrite list_elem_of_filter.
  rewrite elem_of_revenue_inflation, elem_of_missing_invoices.
  split.
  - intros [(row & ? & ? & ? & ->)|[(row & ? & ? & ? & ->)|(r & -> & ? & ?)]].
    + left. split; [done|]. eauto.
    + right; left. split; [done|]. eauto.
    + right; right. split; [done|]. eauto.
  - intros [[_ ?]|[[_ ?]|[_ (r & ? & ? & ->)]]]; eauto 10.
Qed.









(** ** Computations on the heap *)

Lemma bind_run {A B} (m : M A) (k : A → M B) h :
  (m ≫= k) h
  = match m h with
    | (h', Ok a) => k a h'
    | (h', Raise e) => (h', Raise e)
    end.
Proof. done. Qed.

Lemma bind_lift {A B} (r : result A) (k : A → M B) h :
  (lift r ≫= k) h = match r with Ok a => k a h | Raise e => (h, Raise e) end.
Proof. rewrite bind_run. unfold lift. by destruct r. Qed.

Lemma bind_deref {B} l (k : DataFrame → M B) h :
  (deref l ≫= k) h
  = match h !! l with
    | Some df => k df h
    | None => (h, Raise (OtherError "dangling reference"))
    end.
Proof. rewrite bind_run. unfold deref. by destruct (h !! l). Qed.

Lemma bind_setitem {B} l c col (k : () → M B) h :
  (setitem l c col ≫= k) h = k () (alter (insert c col) l h).
Proof. done. Qed.

Lemma readonly_lift {A} (r : result A) : readonly (lift r).
Proof. done. Qed.

Lemma readonly_deref l : readonly (deref l).
Proof. done. Qed.

Lemma readonly_ret {A} (a : A) : readonly (mret a : M A).
Proof. done. Qed.

Lemma readonly_bind {A B} (m : M A) (k : A → M B) :
  readonly m → (∀ a, readonly (k a)) → readonly (m ≫= k).
Proof.
  intros Hm Hk h. rewrite bind_run. specialize (Hm h).
  destruct (m h) as [h' [a|e]]; simpl in *; subst; [apply Hk | done].
Qed.

Ltac readonly :=
  repeat first
    [ apply readonly_lift | apply readonly_deref | apply readonly_ret
    | apply readonly_bind; [|intros ?] ].

Lemma cac_after_write_readonly s f dc : readonly (cac_after_write s f dc).
Proof. unfold cac_after_write. readonly. Qed.

(** The run of [calculate_cac], step by step. *)
Lemma calculate_cac_run s f h :
  calculate_cac s f h
  = match h !! s with
    | None => (h, Raise (OtherError "dangling reference"))
    | Some spend =>
        match daily_campaigns_of spend with
        | Raise e => (h, Raise e)
        | Ok daily_campaigns =>
            match h !! f with
            | None => (h, Raise (OtherError "dangling reference"))
            | Some funnel =>
                match getitem funnel "timestamp" ≫= dt with
                | Raise e => (h, Raise e)
                | Ok ts =>
                    let h' := alter (insert "date" (Datetime64 (option_map to_date <$> ts))) f h in
                    (h', (cac_after_write s f daily_campaigns h').2)
                end
            end
        end
    end.
Proof.
  unfold calculate_cac. rewrite bind_deref. destruct (h !! s) as [spend|]; [|done].
  rewrite bind_lift. destruct (daily_campaigns_of spend) as [dc|e]; [|done].
  rewrite bind_deref. destruct (h !! f) as [funnel|]; [|done].
  rewrite bind_lift. destruct (getitem funnel "timestamp" ≫= dt) as [ts|e]; [|done].
  rewrite bind_setitem. cbv zeta.
  pose proof (cac_after_write_readonly s f dc
    (alter (insert "date" (Datetime64 (option_map to_date <$> ts))) f h)) as Hro.
  unfold cac_after_write in *.
  destruct (_ ≫= _) as [h'' r] eqn:Hrun in |- *. rewrite Hrun in Hro. simpl in *.
  by subst.
Qed.

(** [to_date] truncates a timestamp to the midnight of its day, and this
    determines it. *)
Lemma to_date_midnight t : midnight_of t (to_date t).
Proof.
  unfold midnight_of, to_date.
  assert (0 < ns_per_day)%Z as Hpos by (unfold ns_per_day; lia).
  split.
  - apply Z.mod_mul. lia.
  - pose proof (Z.mul_div_le t ns_per_day Hpos).
    pose proof (Z.mul_succ_div_gt t ns_per_day Hpos). lia.
Qed.

Lemma midnight_of_unique t d : midnight_of t d → d = to_date t.
Proof.
  unfold midnight_of, to_date.
  assert (0 < ns_per_day)%Z as Hpos by (unfold ns_per_day; lia).
  intros [Hmod [Hle Hlt]].
  apply Z.mod_divide in Hmod as [q ->]; [|lia].
  f_equal. apply (Z.div_unique t ns_per_day q (t - q * ns_per_day)); lia.
Qed.

Lemma truncated_to_date ts : Forall2 truncated ts (option_map to_date <$> ts).
Proof.
  induction ts as [|[t|] ts IH]; cbn [fmap list_fmap]; constructor; try done.
  apply to_date_midnight.
Qed.

Lemma truncated_unique ts dates :
  Forall2 truncated ts dates → dates = option_map to_date <$> ts.
Proof.
  induction 1 as [|t d ts dates Htd _ IH]; [done|].
  rewrite fmap_cons, IH. f_equal.
  destruct t as [t|], d as [d|]; simpl in *; try done.
  by rewrite (midnight_of_unique t d).
Qed.

(** C10: a call of [calculate_cac] that returns has written into the funnel
    frame of the caller a date column, added or overwritten, that holds for
    every timestamp the midnight that begins its day (the timestamp
    truncated to a date) and a missing date for a missing timestamp, which
    determines the column; the other columns of the funnel frame and every
    other frame, the Spend frame among them, are unchanged. *)
Theorem calculate_cac_writes_date h df_spend df_funnel h' cac_df :
  calculate_cac df_spend df_funnel h = (h', Ok cac_df) →
  ∃ funnel funnel' ts dates,
    h !! df_funnel = Some funnel
    ∧ h' !! df_funnel = Some funnel'
    ∧ funnel !! "timestamp" = Some (Datetime64 ts)
    ∧ funnel' !! "date" = Some (Datetime64 dates)
    ∧ dates = option_map to_date <$> ts
    ∧ Forall2 truncated ts dates
    ∧ (∀ dates', Forall2 truncated ts dates' → dates' = dates)
    ∧ (∀ c, c ≠ "date" → funnel' !! c = funnel !! c)
    ∧ (df_spend ≠ df_funnel → h' !! df_spend = h !! df_spend)
    ∧ (∀ l, l ≠ df_funnel → h' !! l = h !! l).
Proof.
  rewrite calculate_cac_run.
  destruct (h !! df_spend) as [spend|] eqn:Hs; [|done].
  destruct (daily_campaigns_of spend) as [dc|]; [|done].
  destruct (h !! df_funnel) as [funnel|] eqn:Hf; [|done].
  destruct (getitem funnel "timestamp" ≫= dt) as [ts|] eqn:Hts; [|done].
  cbv zeta. intros [= <- _].
  exists funnel, (<["date" := Datetime64 (option_map to_date <$> ts)]> funnel), ts,
    (option_map to_date <$> ts).
  split; [done|]. split; [by rewrite lookup_alter_eq, Hf|].
  split.
  { unfold getitem in Hts. destruct (funnel !! "timestamp") as [col|]; [|done].
    destruct col; cbn in Hts; by simplify_eq. }
  split; [by rewrite lookup_insert_eq|].
  split; [done|].
  split; [apply truncated_to_date|].
  split; [apply truncated_unique|].
  split; [intros c Hc; by rewrite lookup_insert_ne|].
  split; [intros Hne|intros l Hne]; rewrite lookup_alter_ne by congruence; done.
Qed.

Lemma calculate_cac_writes_date_witness :
  let h := two_frames spend_A funnel_U1 in
  let run := calculate_cac 1%positive 2%positive h in
  ∃ funnel funnel' ts dates,
    h !! 2%positive = Some funnel
    ∧ run.1 !! 2%positive = Some funnel'
    ∧ funnel !! "timestamp" = Some (Datetime64 ts)
    ∧ funnel' !! "date" = Some (Datetime64 dates)
    ∧ dates = option_map to_date <$> ts
    ∧ Forall2 truncated ts dates
    ∧ (∀ dates', Forall2 truncated ts dates' → dates' = dates)
    ∧ (∀ c, c ≠ "date" → funnel' !! c = funnel !! c)
    ∧ (1%positive ≠ 2%positive → run.1 !! 1%positive = h !! 1%positive)
    ∧ (∀ l, l ≠ 2%positive → run.1 !! l = h !! l).
Proof.
  intros h run.
  apply (calculate_cac_writes_date h 1%positive 2%positive run.1
           (cac_table {[VStr "A" := 1]} {[VStr "A" := Qc_of_Z 100]})).
  vm_compute. reflexivity.
Defined.

(** The event of the scenario is at one o'clock of day 1: the date written
    is the midnight of day 1. *)
Example calculate_cac_date_of_scenario :
  (calculate_cac 1%positive 2%positive (two_frames spend_A funnel_U1)).1 !! 2%positive
  = Some (<["date" := Datetime64 [day 1]]> (funnel_frame funnel_U1))
  ∧ e_timestamp <$> funnel_U1 = [Some (1 * ns_per_day + 3600000000000)%Z]
  ∧ day 1 = Some (1 * ns_per_day)%Z.
Proof. split; [vm_compute; reflexivity|]. split; reflexivity. Qed.

(** ** First occurrences and selections *)

Section selections.
Context {A : Type} `{EqDecision A}.
Implicit Types (l : list A) (idx : list nat).

Lemma first_occurrences_lt l i : i ∈ first_occurrences l → i < length l.
Proof.
  revert i. induction l as [|x l IH]; intros i Hi.
  - by apply not_elem_of_nil in Hi.
  - cbn [first_occurrences] in Hi. apply elem_of_cons in Hi as [->|Hi]; [simpl; lia|].
    apply list_elem_of_fmap in Hi as (j & -> & Hj).
    apply list_elem_of_filter in Hj as [_ Hj]. apply IH in Hj. simpl. lia.
Qed.

Lemma first_occurrences_complete l x :
  x ∈ l → ∃ i, i ∈ first_occurrences l ∧ l !! i = Some x.
Proof.
  induction l as [|y l IH]; intros Hx.
  - by apply not_elem_of_nil in Hx.
  - destruct (decide (x = y)) as [->|Hne].
    + exists 0. split; [left|done].
    + apply elem_of_cons in Hx as [?|Hx]; [done|].
      destruct (IH Hx) as (i & Hi & Hlook). exists (S i). split; [|done].
      cbn [first_occurrences]. right. apply list_elem_of_fmap. exists i. split; [done|].
      apply list_elem_of_filter. split; [|done]. rewrite Hlook. congruence.
Qed.
End selections.

Section select.
Context {A B : Type}.

Lemma elem_of_select (idx : list nat) (L : list A) a :
  a ∈ select idx L ↔ ∃ i, i ∈ idx ∧ L !! i = Some a.
Proof. unfold select. apply list_elem_of_omap. Qed.

Lemma take_list_select (f : A → option B) (idx : list nat) (L : list A) :
  (∀ i, i ∈ idx → i < length L) →
  take_list idx (f <$> L) = f <$> select idx L.
Proof.
  induction idx as [|i idx IH]; intros Hlt; [done|].
  unfold take_list, select in *. cbn [fmap list_fmap omap list_omap].
  destruct (lookup_lt_is_Some_2 L i) as [a Ha]; [apply Hlt; left|].
  rewrite list_lookup_fmap, Ha. simpl. f_equal.
  apply IH. intros j Hj. apply Hlt. by right.
Qed.

Lemma zip_fmap_fmap {C} (f : A → B) (g : A → C) (L : list A) :
  zip (f <$> L) (g <$> L) = (λ a, (f a, g a)) <$> L.
Proof. induction L as [|a L IH]; [done|]. simpl. by f_equal. Qed.
End select.

(** [drop_duplicates] keeps rows of the table, one for every key. *)
Lemma daily_rows_sound S dc : dc ∈ daily_rows S → dc ∈ S.
Proof.
  intros (i & _ & Hi)%elem_of_select. by eapply list_elem_of_lookup_2.
Qed.

Lemma daily_rows_complete S s :
  s ∈ S → ∃ dc, dc ∈ daily_rows S ∧ daily_key dc = daily_key s.
Proof.
  intros Hs.
  destruct (first_occurrences_complete (daily_key <$> S) (daily_key s))
    as (i & Hi & Hlook); [by apply list_elem_of_fmap_2|].
  rewrite list_lookup_fmap in Hlook.
  destruct (S !! i) as [dc|] eqn:Hdc; [|done].
  change (Some (daily_key dc) = Some (daily_key s)) in Hlook.
  exists dc. split; [|congruence]. apply elem_of_select. eauto.
Qed.

Lemma daily_rows_take {B} (f : spend_row → option B) S :
  take_list (first_occurrences (daily_key <$> S)) (f <$> S) = f <$> daily_rows S.
Proof.
  apply take_list_select. intros i Hi%first_occurrences_lt.
  by rewrite length_fmap in Hi.
Qed.

Lemma size_set_map_inj `{Countable X, Countable Y} (f : X → Y) `{!Inj (=) (=) f}
    (s : gset X) :
  size (set_map f s : gset Y) = size s.
Proof.
  unfold set_map. rewrite size_list_to_set.
  - by rewrite length_fmap.
  - apply (NoDup_fmap_2 f), NoDup_elements.
Qed.

(** ** calculate_cac on the tables of the data model *)

Lemma daily_campaigns_eval S :
  daily_campaigns_of (spend_frame S)
  = Ok (<["date" := Datetime64 (s_date <$> daily_rows S)]>
        {["campaign" := Object (s_campaign <$> daily_rows S)]}).
Proof.
  trans (let keep := first_occurrences
                       (zip (option_map VTime <$> (s_date <$> S))
                            (option_map VStr <$> (s_campaign <$> S))) in
         Ok (<["date" := Datetime64 (take_list keep (s_date <$> S))]>
             ({["campaign" := Object (take_list keep (s_campaign <$> S))]} : DataFrame)));
    [reflexivity|].
  cbv zeta. rewrite <-!list_fmap_compose, zip_fmap_fmap.
  change (λ a, ((option_map VTime ∘ s_date) a, (option_map VStr ∘ s_campaign) a))
    with daily_key.
  by rewrite !daily_rows_take.
Qed.

Lemma acquisitions_eval E DC :
  acquisitions_of
    (<["date" := Datetime64 (option_map to_date <$> (e_timestamp <$> E))]> (funnel_frame E))
    (<["date" := Datetime64 (s_date <$> DC)]> {["campaign" := Object (s_campaign <$> DC)]})
  = Ok (size <$> group_sets
          ((option_map VStr ∘ s_campaign ∘ snd) <$> filter is_checkout (event_pairs E DC))
          ((option_map VStr ∘ e_user_id ∘ fst) <$> filter is_checkout (event_pairs E DC))).
Proof.
  trans (
    let idx := join_pairs (option_map VTime <$> (option_map to_date <$> (e_timestamp <$> E)))
                          (option_map VTime <$> (s_date <$> DC)) in
    let mask := (λ x, bool_decide (x = Some (VStr "checkout")))
                  <$> (option_map VStr <$> take_list idx.*1 (e_event_type <$> E)) in
    Ok (size <$> group_sets
          (option_map VStr <$> take_list (where_true mask) (take_list idx.*2 (s_campaign <$> DC)))
          (option_map VStr <$> take_list (where_true mask) (take_list idx.*1 (e_user_id <$> E)))));
    [reflexivity|].
  cbv zeta.
  rewrite <-(list_fmap_compose e_timestamp), <-(list_fmap_compose _ (option_map VTime)).
  rewrite <-(list_fmap_compose s_date).
  change (option_map VTime ∘ (option_map to_date ∘ e_timestamp))
    with (option_map VTime ∘ event_date).
  rewrite !(join_take_l (option_map VTime ∘ event_date) (option_map VTime ∘ s_date)).
  rewrite !(join_take_r (option_map VTime ∘ event_date) (option_map VTime ∘ s_date)).
  fold (event_pairs E DC).
  rewrite <-(list_fmap_compose _ (option_map VStr)), <-(list_fmap_compose _ (λ x, bool_decide _)).
  change ((λ x, bool_decide (x = Some (VStr "checkout")))
            ∘ (option_map VStr ∘ (λ p : funnel_row * spend_row, e_event_type p.1)))
    with is_checkout.
  rewrite !(where_true_filter is_checkout).
  by rewrite <-!list_fmap_compose.
Qed.

Lemma elem_of_checkout_group E S c e dc :
  (e, dc) ∈ group_rows (option_map VStr ∘ s_campaign ∘ snd) (VStr c)
             (filter is_checkout (event_pairs E (daily_rows S)))
  ↔ e ∈ E ∧ dc ∈ daily_rows S ∧ event_date e = s_date dc
    ∧ e_event_type e = Some "checkout" ∧ s_campaign dc = Some c.
Proof.
  unfold group_rows, event_pairs, is_checkout.
  rewrite !list_elem_of_filter, elem_of_row_join, bool_decide_spec. simpl.
  rewrite !(option_map_inj_iff VStr), (option_map_eq_iff VTime). naive_solver.
Qed.

Lemma elem_of_attributed S E c e :
  e ∈ attributed S E c
  ↔ e ∈ E ∧ e_event_type e = Some "checkout"
    ∧ ∃ s, s ∈ S ∧ s_campaign s = Some c ∧ s_date s = event_date e.
Proof.
  unfold attributed. rewrite list_elem_of_filter, Exists_exists.
  setoid_rewrite <-list_elem_of_In.
  split; [intros [[? ?] ?]|intros (? & ? & ?)]; done.
Qed.

(** An event is in the group of a campaign exactly when it is attributed
    to it. *)
Lemma checkout_group_attributed E S c e :
  (∃ dc, (e, dc) ∈ group_rows (option_map VStr ∘ s_campaign ∘ snd) (VStr c)
                     (filter is_checkout (event_pairs E (daily_rows S))))
  ↔ e ∈ attributed S E c.
Proof.
  setoid_rewrite elem_of_checkout_group. rewrite elem_of_attributed. split.
  - intros (dc & He & Hdc & Hdate & Hck & Hc). split; [done|]. split; [done|].
    exists dc. split; [by apply daily_rows_sound|]. done.
  - intros (He & Hck & s & Hs & Hc & Hdate).
    destruct (daily_rows_complete S s Hs) as (dc & Hdc & Hkey).
    injection Hkey as Hd Hcamp.
    apply (option_map_eq_iff VTime) in Hd. apply (option_map_eq_iff VStr) in Hcamp.
    exists dc. split; [done|]. split; [done|]. split; [congruence|]. split; [done|]. congruence.
Qed.

Lemma checkout_group_nil E S c :
  group_rows (option_map VStr ∘ s_campaign ∘ snd) (VStr c)
    (filter is_checkout (event_pairs E (daily_rows S))) = []
  ↔ attributed S E c = [].
Proof.
  split; intros Hnil.
  - destruct (attributed S E c) as [|e evs] eqn:Hatt; [done|].
    assert (e ∈ attributed S E c) as He by (rewrite Hatt; left).
    apply checkout_group_attributed in He as (dc & Hin).
    rewrite Hnil in Hin. by apply not_elem_of_nil in Hin.
  - destruct (group_rows _ _ _) as [|[e dc] G] eqn:HG; [done|].
    assert (e ∈ attributed S E c) as He.
    { apply checkout_group_attributed. exists dc. rewrite HG. left. }
    rewrite Hnil in He. by apply not_elem_of_nil in He.
Qed.

Lemma checkout_group_users E S c :
  list_to_set (omap (option_map VStr ∘ e_user_id ∘ fst)
    (group_rows (option_map VStr ∘ s_campaign ∘ snd) (VStr c)
       (filter is_checkout (event_pairs E (daily_rows S)))))
  = (set_map VStr (users (attributed S E c)) : gset value).
Proof.
  apply set_eq. intros x.
  rewrite elem_of_list_to_set, list_elem_of_omap, elem_of_map. unfold users.
  setoid_rewrite elem_of_list_to_set. setoid_rewrite list_elem_of_omap. split.
  - intros ([e dc] & Hin & Hx). simpl in Hx.
    destruct (e_user_id e) as [u|] eqn:Hu; [|done]. injection Hx as <-.
    exists u. split; [done|]. exists e. split; [|done].
    apply checkout_group_attributed. eauto.
  - intros (u & -> & e & He & Hu).
    apply checkout_group_attributed in He as (dc & Hin).
    exists (e, dc). split; [done|]. simpl. by rewrite Hu.
Qed.

Lemma attributed_spend S E c : attributed S E c ≠ [] → spend_of S c ≠ [].
Proof.
  intros Hatt Hnil. destruct (attributed S E c) as [|e evs] eqn:Heq; [done|].
  assert (e ∈ attributed S E c) as He by (rewrite Heq; left).
  apply elem_of_attributed in He as (_ & _ & s & Hs & Hc & _).
  assert (s ∈ spend_of S c) as Hin by by apply list_elem_of_filter.
  rewrite Hnil in Hin. by apply not_elem_of_nil in Hin.
Qed.

(** The CAC table of a Spend table and a Funnel table, entry by entry. *)
Lemma calculate_cac_tables S E h df_spend df_funnel :
  df_spend ≠ df_funnel →
  h !! df_spend = Some (spend_frame S) →
  h !! df_funnel = Some (funnel_frame E) →
  ∃ h' cac_df,
    calculate_cac df_spend df_funnel h = (h', Ok cac_df)
    ∧ ∀ c, cac_df !! VStr c
           = match attributed S E c with
             | [] => None
             | _ :: _ =>
                 let n := size (users (attributed S E c)) in
                 Some (CacRow (fdiv (campaign_spend S c) (Qc_of_nat n)) n)
             end.
Proof.
  intros Hne Hs Hf. rewrite calculate_cac_run, Hs, daily_campaigns_eval, Hf.
  change (getitem (funnel_frame E) "timestamp" ≫= dt) with (Ok (e_timestamp <$> E)).
  cbv zeta. unfold cac_after_write.
  rewrite bind_deref, lookup_alter_eq, Hf. cbn [fmap option_fmap option_map].
  rewrite bind_lift, acquisitions_eval.
  rewrite bind_deref, lookup_alter_ne, Hs by done.
  rewrite bind_lift.
  change (groupby_sum (spend_frame S) "campaign" "spend")
    with (Ok (group_sum (option_map VStr <$> (s_campaign <$> S)) (s_spend <$> S))).
  eexists _, _. split; [reflexivity|]. intros c.
  unfold cac_table. rewrite lookup_merge, lookup_fmap.
  rewrite (group_sets_rows (option_map VStr ∘ s_campaign ∘ snd) (option_map VStr ∘ e_user_id ∘ fst)).
  rewrite <-list_fmap_compose, (group_sum_rows (option_map VStr ∘ s_campaign) s_spend), spend_group.
  pose proof (checkout_group_nil E S c) as Hnil.
  pose proof (checkout_group_users E S c) as Husers.
  pose proof (attributed_spend S E c) as Hspend.
  destruct (group_rows _ _ (filter _ _)) as [|p G].
  - rewrite (proj1 Hnil eq_refl). simpl. by destruct (spend_of S c).
  - destruct (attributed S E c) as [|e evs] eqn:Hatt.
    { by pose proof (proj2 Hnil eq_refl). }
    destruct (spend_of S c) as [|s rows] eqn:Hsp; [by destruct Hspend|].
    rewrite Husers. cbn [fmap option_fmap option_map]. rewrite size_set_map_inj by apply _.
    unfold campaign_spend. by rewrite Hsp.
Qed.

Lemma users_empty evs :
  size (users evs) = 0 ↔ ∀ e, e ∈ evs → e_user_id e = None.
Proof.
  rewrite size_empty_iff, elem_of_equiv_empty. unfold users.
  setoid_rewrite elem_of_list_to_set. setoid_rewrite list_elem_of_omap. split.
  - intros Hnone e He. destruct (e_user_id e) as [u|] eqn:Hu; [|done].
    destruct (Hnone u). eauto.
  - intros Hall u (e & He & Hu). rewrite (Hall e He) in Hu. done.
Qed.

(** C6, as amended: a campaign to which the date join attributes no
    checkout event is absent from the CAC table; a campaign of the table has
    for customers the number of distinct user ids of the checkout events
    attributed to it, which is 0 exactly when all of these events lack a
    user id. *)
Theorem cac_customers S E h df_spend df_funnel :
  df_spend ≠ df_funnel →
  h !! df_spend = Some (spend_frame S) →
  h !! df_funnel = Some (funnel_frame E) →
  ∃ h' cac_df,
    calculate_cac df_spend df_funnel h = (h', Ok cac_df)
    ∧ (∀ c, attributed S E c = [] → cac_df !! VStr c = None)
    ∧ (∀ c row, cac_df !! VStr c = Some row →
         attributed S E c ≠ []
         ∧ customers row = size (users (attributed S E c))
         ∧ (customers row = 0 ↔ ∀ e, e ∈ attributed S E c → e_user_id e = None)).
Proof.
  intros Hne Hs Hf.
  destruct (calculate_cac_tables S E h df_spend df_funnel Hne Hs Hf)
    as (h' & cac_df & Hrun & Hlook).
  exists h', cac_df. split; [exact Hrun|]. clear Hrun. split.
  - intros c Hnil. by rewrite Hlook, Hnil.
  - intros c row. rewrite Hlook.
    destruct (attributed S E c) as [|e evs] eqn:Hatt; [done|].
    cbv zeta. intros [= <-]. simpl. split; [done|]. split; [done|].
    apply users_empty.
Qed.

Lemma cac_customers_witness :
  ∃ h' cac_df,
    calculate_cac 1%positive 2%positive (two_frames spend_A funnel_U1) = (h', Ok cac_df)
    ∧ (∀ c, attributed spend_A funnel_U1 c = [] → cac_df !! VStr c = None)
    ∧ (∀ c row, cac_df !! VStr c = Some row →
         attributed spend_A funnel_U1 c ≠ []
         ∧ customers row = size (users (attributed spend_A funnel_U1 c))
         ∧ (customers row = 0
            ↔ ∀ e, e ∈ attributed spend_A funnel_U1 c → e_user_id e = None)).
Proof.
  apply (cac_customers spend_A funnel_U1 (two_frames spend_A funnel_U1) 1%positive 2%positive).
  - discriminate.
  - reflexivity.
  - reflexivity.
Defined.

(** C6 as the specification states it fails: a campaign whose only checkout
    event has no user id is in the table with 0 customers and an infinite
    CAC. *)
Lemma cac_zero_customers : ¬ spec_cac_customers spend_A funnel_anonymous.
Proof.
  intros Hspec.
  pose (h := two_frames spend_A funnel_anonymous).
  specialize (Hspec h (calculate_cac 1%positive 2%positive h).1 1%positive 2%positive
                {[VStr "A" := CacRow PosInf 0]} (VStr "A") (CacRow PosInf 0)).
  apply Hspec; clear Hspec.
  - discriminate.
  - reflexivity.
  - reflexivity.
  - vm_compute. reflexivity.
  - reflexivity.
  - reflexivity.
Qed.

(** ** Running the calculations twice *)

Lemma roas_step_readonly m fi s : readonly (roas_step m fi s).
Proof. unfold roas_step. readonly. Qed.

Lemma summary_step_readonly m fi s roas cac : readonly (summary_step m fi s roas cac).
Proof. unfold summary_step. readonly. Qed.

(** The first step depends on the three revenue and spend frames only. *)
Lemma roas_step_agree m fi s h g :
  g !! m = h !! m → g !! fi = h !! fi → g !! s = h !! s →
  (roas_step m fi s g).2 = (roas_step m fi s h).2.
Proof.
  intros Hm Hfi Hs. unfold roas_step. rewrite !bind_deref, Hm.
  destruct (h !! m); [|done]. rewrite !bind_deref, Hfi.
  destruct (h !! fi); [|done]. rewrite !bind_deref, Hs.
  by destruct (h !! s).
Qed.

Lemma reconcile_steps m fi s f h :
  reconcile m fi s f h
  = (roas ← roas_step m fi s; cac_df ← calculate_cac s f; summary_step m fi s roas cac_df) h.
Proof.
  unfold reconcile, roas_step, summary_step.
  rewrite (bind_run (_ ≫= _)), !bind_deref. destruct (h !! m); [|done].
  rewrite !bind_deref. destruct (h !! fi); [|done].
  rewrite !bind_deref. destruct (h !! s); [|done].
  rewrite bind_lift. unfold lift. by destruct (calculate_roas _ _ _).
Qed.

(** [calculate_cac] leaves every frame but the funnel frame as it is. *)
Lemma calculate_cac_frame s f h l :
  l ≠ f → (calculate_cac s f h).1 !! l = h !! l.
Proof.
  intros Hne. rewrite calculate_cac_run.
  destruct (h !! s); [|done]. destruct (daily_campaigns_of _); [|done].
  destruct (h !! f); [|done]. destruct (_ ≫= dt); [|done].
  cbv zeta. simpl. by rewrite lookup_alter_ne.
Qed.

(** A second call of [calculate_cac] writes the same column again and
    returns the same table. *)
Lemma calculate_cac_again s f h :
  s ≠ f →
  calculate_cac s f (calculate_cac s f h).1 = calculate_cac s f h.
Proof.
  intros Hne. rewrite (calculate_cac_run s f h).
  destruct (h !! s) as [spend|] eqn:Hs.
  2:{ simpl. by rewrite calculate_cac_run, Hs. }
  destruct (daily_campaigns_of spend) as [dc|e] eqn:Hdc.
  2:{ simpl. by rewrite calculate_cac_run, Hs, Hdc. }
  destruct (h !! f) as [funnel|] eqn:Hf.
  2:{ simpl. by rewrite calculate_cac_run, Hs, Hdc, Hf. }
  destruct (getitem funnel "timestamp" ≫= dt) as [ts|e] eqn:Hts.
  2:{ simpl. by rewrite calculate_cac_run, Hs, Hdc, Hf, Hts. }
  cbv zeta. simpl.
  set (col := Datetime64 (option_map to_date <$> ts)).
  rewrite calculate_cac_run.
  rewrite lookup_alter_ne, Hs, Hdc by congruence.
  rewrite lookup_alter_eq, Hf. simpl.
  assert (getitem (<["date" := col]> funnel) "timestamp" ≫= dt = Ok ts) as ->.
  { unfold getitem in *. by rewrite lookup_insert_ne. }
  cbv zeta. fold col.
  assert (alter (insert "date" col) f (alter (insert "date" col) f h)
          = alter (insert "date" col) f h) as ->; [|done].
  apply map_eq. intros l. destruct (decide (l = f)) as [->|Hl].
  - rewrite !lookup_alter_eq, Hf. simpl. by rewrite insert_insert_eq.
  - by rewrite !lookup_alter_ne.
Qed.

(** C9: running the calculations a second time on the four frames, as the
    first run left them, gives the same report (or the same fault) and
    leaves the frames as they are, the funnel frame being a frame of its
    own. *)
Theorem reconcile_idempotent df_mkt df_fin df_spend df_funnel h :
  df_funnel ≠ df_mkt → df_funnel ≠ df_fin → df_funnel ≠ df_spend →
  let '(first, second) := reconcile_twice df_mkt df_fin df_spend df_funnel h in
  second.2 = first.2 ∧ second.1 = first.1.
Proof.
  intros Hm Hfi Hs. unfold reconcile_twice.
  assert (∀ g, reconcile df_mkt df_fin df_spend df_funnel g
    = match (roas_step df_mkt df_fin df_spend g).2 with
      | Raise e => (g, Raise e)
      | Ok roas =>
          match calculate_cac df_spend df_funnel g with
          | (g', Raise e) => (g', Raise e)
          | (g', Ok cac_df) =>
              (g', (summary_step df_mkt df_fin df_spend roas cac_df g').2)
          end
      end) as Hrun.
  { intros g. rewrite reconcile_steps, bind_run.
    pose proof (roas_step_readonly df_mkt df_fin df_spend g) as Hro.
    destruct (roas_step df_mkt df_fin df_spend g) as [g0 [roas|e]]; simpl in *; subst; [|done].
    rewrite bind_run. destruct (calculate_cac df_spend df_funnel g) as [g' [cac_df|e]]; [|done].
    pose proof (summary_step_readonly df_mkt df_fin df_spend roas cac_df g') as Hro.
    destruct (summary_step _ _ _ _ _ g') as [g'' r]. simpl in *. by subst. }
  rewrite (Hrun h).
  destruct (roas_step df_mkt df_fin df_spend h).2 as [roas|e] eqn:Hroas.
  2:{ simpl. rewrite Hrun, Hroas. done. }
  pose proof (calculate_cac_again df_spend df_funnel h (not_eq_sym Hs)) as Hagain.
  pose proof (calculate_cac_frame df_spend df_funnel h) as Hframe.
  destruct (calculate_cac df_spend df_funnel h) as [h1 r] eqn:Hcac. simpl in *.
  assert ((roas_step df_mkt df_fin df_spend h1).2 = Ok roas) as Hroas1.
  { rewrite <-Hroas. apply roas_step_agree; apply Hframe; congruence. }
  destruct r as [cac_df|e]; simpl; rewrite Hrun, Hroas1, Hagain; done.
Qed.

Lemma reconcile_idempotent_witness :
  let h : heap :=
    <[1%positive := mkt_frame mkt_A]> (<[2%positive := fin_frame fin_A]>
      (<[3%positive := spend_frame spend_A]> {[4%positive := funnel_frame funnel_U1]})) in
  is_ok (reconcile 1%positive 2%positive 3%positive 4%positive h).2 = true
  ∧ let '(first, second) := reconcile_twice 1%positive 2%positive 3%positive 4%positive h in
    second.2 = first.2 ∧ second.1 = first.1.
Proof.
  intros h. split; [vm_compute; reflexivity|].
  apply (reconcile_idempotent 1%positive 2%positive 3%positive 4%positive h); lia.
Defined.

(** ** The report *)






(** A missing file and a missing column both end in the empty report; the
    scenario of the specification gives a report. *)
Example report_without_spend_file :
  (try_body files_without_spend parse_dates ∅).2
  = Raise (FileNotFoundError "data/marketing_spend.csv")
  ∧ (generate_reconciliation_report files_without_spend parse_dates ∅).2 = ∅.
Proof. split; vm_compute; reflexivity. Qed.

Example report_with_renamed_column :
  (try_body files_renamed parse_dates ∅).2 = Raise (KeyError "revenue_fin")
  ∧ (generate_reconciliation_report files_renamed parse_dates ∅).2 = ∅.
Proof. split; vm_compute; reflexivity. Qed.

Example report_of_scenario :
  is_ok (try_body files_scenario parse_dates ∅).2 = true
  ∧ (generate_reconciliation_report files_scenario parse_dates ∅).2 !! "roas_finance"
    = Some (Roas {[VStr "A" := fdiv (Qc_of_Z 200) (Qc_of_Z 100)]}).
Proof. split; vm_compute; reflexivity. Qed.
(** * Further properties *)

(** ** The ROAS tables: keys, zero spend, attribution *)

Lemma str_group_other {A} (kf : A → option string) (L : list A) k :
  (∀ c, k ≠ VStr c) → group_rows (option_map VStr ∘ kf) k L = [].
Proof.
  intros Hk. apply group_rows_nil. intros a _. simpl.
  destruct (kf a); simpl; [|done]. intros [= <-]. by eapply Hk.
Qed.

Lemma calculate_roas_other_keys M F S roas_mkt roas_fin k :
  calculate_roas (mkt_frame M) (fin_frame F) (spend_frame S) = Ok (roas_mkt, roas_fin) →
  (∀ c, k ≠ VStr c) →
  roas_mkt !! k = None ∧ roas_fin !! k = None.
Proof.
  rewrite calculate_roas_eval. cbv zeta. intros [= <- <-] Hk.
  rewrite !series_div_lookup, <-!list_fmap_compose.
  rewrite (group_sum_rows (option_map VStr ∘ m_campaign) m_revenue).
  rewrite (group_sum_rows (option_map VStr ∘ s_campaign) s_spend).
  rewrite (join_take_l (option_map VTime ∘ m_date) (option_map VTime ∘ f_date) m_campaign M F).
  rewrite (join_take_r (option_map VTime ∘ m_date) (option_map VTime ∘ f_date) f_revenue M F).
  rewrite <-list_fmap_compose.
  change (λ p : mkt_row * fin_row, m_campaign p.1)
    with (m_campaign ∘ (fst : mkt_row * fin_row → mkt_row)).
  rewrite (group_sum_rows (option_map VStr ∘ (m_campaign ∘ fst)) (λ p, f_revenue p.2)).
  by rewrite !str_group_other.
Qed.

(** X1: the marketing-view table has exactly the campaigns that occur in
    Spend or in Marketing Revenue, the finance-view table those that occur in
    Spend or in a pair of the date join; a campaign of Spend is in both, and
    the tables have no other key. *)
Theorem roas_tables_keys M F S :
  ∃ roas_mkt roas_fin,
    calculate_roas (mkt_frame M) (fin_frame F) (spend_frame S) = Ok (roas_mkt, roas_fin)
    ∧ (∀ c, is_Some (roas_mkt !! VStr c) ↔ mkt_of M c ≠ [] ∨ spend_of S c ≠ [])
    ∧ (∀ c, is_Some (roas_fin !! VStr c) ↔ fin_pairs_of M F c ≠ [] ∨ spend_of S c ≠ [])
    ∧ (∀ k, is_Some (roas_mkt !! k) ∨ is_Some (roas_fin !! k) → ∃ c, k = VStr c).
Proof.
  destruct (calculate_roas_tables M F S) as (rm & rf & Hcalc & Hm & Hf).
  exists rm, rf. split; [exact Hcalc|]. split; [|split].
  - intros c. rewrite Hm. clear.
    destruct (mkt_of M c), (spend_of S c); simpl; split;
      try (intros [? ?]; done); try (intros [?|?]; done); eauto.
  - intros c. rewrite Hf. clear.
    destruct (fin_pairs_of M F c), (spend_of S c); simpl; split;
      try (intros [? ?]; done); try (intros [?|?]; done); eauto.
  - intros k Hk. destruct k as [q|c|t]; [|by eauto|]; exfalso.
    + destruct (calculate_roas_other_keys M F S rm rf (VNum q) Hcalc) as [H1 H2]; [done|].
      clear Hcalc. rewrite H1, H2 in Hk. by destruct Hk as [[? ?]|[? ?]].
    + destruct (calculate_roas_other_keys M F S rm rf (VTime t) Hcalc) as [H1 H2]; [done|].
      clear Hcalc. rewrite H1, H2 in Hk. by destruct Hk as [[? ?]|[? ?]].
Qed.
(** X2: a campaign whose total spend is 0 makes no fault: its ROAS is the
    float quotient by zero, an infinity of the sign of the revenue, or [NaN]
    when the revenue is 0 too. *)
Theorem roas_zero_spend M F S c :
  spend_of S c ≠ [] →
  campaign_spend S c = 0%Qc →
  ∃ roas_mkt roas_fin,
    calculate_roas (mkt_frame M) (fin_frame F) (spend_frame S) = Ok (roas_mkt, roas_fin)
    ∧ (mkt_of M c ≠ [] → roas_mkt !! VStr c = Some (div_by_zero (mkt_revenue_of M c)))
    ∧ (fin_pairs_of M F c ≠ [] →
       roas_fin !! VStr c = Some (div_by_zero (fin_revenue_of M F c))).
Proof.
  intros HS Hzero.
  destruct (calculate_roas_tables M F S) as (rm & rf & Hcalc & Hm & Hf).
  exists rm, rf. split; [exact Hcalc|]. clear Hcalc.
  rewrite Hm, Hf, Hzero. destruct (spend_of S c); [congruence|].
  split; intros Hne.
  - destruct (mkt_of M c); [congruence|]. simpl. unfold fdiv. by rewrite decide_True.
  - destruct (fin_pairs_of M F c); [congruence|]. simpl. unfold fdiv. by rewrite decide_True.
Qed.

Lemma roas_zero_spend_witness :
  ∃ roas_mkt roas_fin,
    calculate_roas (mkt_frame mkt_A) (fin_frame fin_A) (spend_frame spend_zero)
    = Ok (roas_mkt, roas_fin)
    ∧ roas_mkt !! VStr "A" = Some PosInf.
Proof.
  destruct (roas_zero_spend mkt_A fin_A spend_zero "A") as (rm & rf & Hcalc & Hm & _).
  - vm_compute. discriminate.
  - vm_compute. reflexivity.
  - exists rm, rf. split; [exact Hcalc|]. clear Hcalc. apply Hm. vm_compute. discriminate.
Defined.

Lemma nansum_app xs ys : nansum (xs ++ ys) = (nansum xs + nansum ys)%Qc.
Proof.
  induction xs as [|x xs IH]; simpl; [by rewrite Qcplus_0_l|].
  rewrite IH. ring.
Qed.

Lemma filter_campaign_pairs (m : mkt_row) c (l : list fin_row) :
  filter (λ p : mkt_row * fin_row, m_campaign p.1 = Some c) (pair m <$> l)
  = if decide (m_campaign m = Some c) then pair m <$> l else [].
Proof.
  induction l as [|b l IH]; [by destruct (decide _)|].
  cbn [fmap list_fmap]. rewrite filter_cons. simpl. rewrite IH.
  by destruct (decide (m_campaign m = Some c)).
Qed.

Lemma fin_revenue_rows M F c :
  fin_revenue_of M F c = sumQc ((λ m, fin_at F (m_date m)) <$> mkt_of M c).
Proof.
  unfold fin_revenue_of, fin_pairs_of, date_join, mkt_of.
  induction M as [|m M IH]; [done|].
  cbn [mbind list_bind]. rewrite list.filter_app, fmap_app, nansum_app, IH.
  rewrite (filter_cons _ m M).
  rewrite filter_campaign_pairs.
  destruct (decide (m_campaign m = Some c)) as [Hc|Hc].
  - cbn [fmap list_fmap sumQc foldr]. f_equal.
    by rewrite <-list_fmap_compose.
  - cbn [fmap list_fmap nansum foldr]. by rewrite Qcplus_0_l.
Qed.

(** X3: the finance revenue attributed to a campaign is the sum, over the
    marketing rows of the campaign, of the whole finance revenue recorded on
    the date of the row: a date with several marketing rows is counted once
    for each of them. *)
Theorem roas_finance_per_marketing_row M F S c :
  fin_pairs_of M F c ≠ [] →
  spend_of S c ≠ [] →
  ∃ roas_mkt roas_fin,
    calculate_roas (mkt_frame M) (fin_frame F) (spend_frame S) = Ok (roas_mkt, roas_fin)
    ∧ roas_fin !! VStr c
      = Some (fdiv (sumQc ((λ m, fin_at F (m_date m)) <$> mkt_of M c))
                   (campaign_spend S c)).
Proof.
  intros HP HS.
  destruct (calculate_roas_tables M F S) as (rm & rf & Hcalc & _ & Hf).
  exists rm, rf. split; [exact Hcalc|]. clear Hcalc.
  rewrite Hf, <-fin_revenue_rows.
  destruct (fin_pairs_of M F c); [congruence|].
  by destruct (spend_of S c); [congruence|].
Qed.
Lemma roas_finance_per_marketing_row_witness :
  ∃ roas_mkt roas_fin,
    calculate_roas (mkt_frame mkt_A_twice) (fin_frame fin_A) (spend_frame spend_A)
    = Ok (roas_mkt, roas_fin)
    ∧ roas_fin !! VStr "A"
      = Some (fdiv (sumQc ((λ m, fin_at fin_A (m_date m)) <$> mkt_of mkt_A_twice "A"))
                   (campaign_spend spend_A "A")).
Proof.
  apply (roas_finance_per_marketing_row mkt_A_twice fin_A spend_A "A").
  - vm_compute. discriminate.
  - vm_compute. discriminate.
Defined.

(** ** Column names *)

(** The columns of a merged frame come from the two frames, under their own
    name or with a suffix. *)
Lemma merge_inner_columns ldf rdf on lsuffix rsuffix merged c :
  merge_inner ldf rdf on lsuffix rsuffix = Ok merged →
  is_Some (merged !! c) →
  (∃ c', is_Some (ldf !! c') ∧ (c = c' ∨ c' ≠ on ∧ is_Some (rdf !! c') ∧ c = c' +:+ lsuffix))
  ∨ (∃ c', c' ≠ on ∧ is_Some (rdf !! c')
           ∧ (c = c' ∧ ldf !! c' = None ∨ is_Some (ldf !! c') ∧ c = c' +:+ rsuffix)).
Proof.
  unfold merge_inner.
  destruct (getitem ldf on) as [lk|]; [|done]. cbn [mbind result_bind].
  destruct (getitem rdf on) as [rk|]; [|done]. cbn [mbind result_bind].
  case_decide; [|done]. case_decide as Hnodup; [|done].
  intros [= <-] [col Hcol].
  apply elem_of_list_to_map_2, elem_of_app in Hcol as [Hin|Hin];
    apply list_elem_of_fmap in Hin as ([c' col'] & [= -> ->] & Hin);
    apply elem_of_map_to_list in Hin; simpl.
  - left. exists c'. split; [by eexists|]. case_decide as Hd; [right|by left].
    destruct Hd. done.
  - right. apply lookup_delete_Some in Hin as [Hne Hin]. exists c'.
    split; [done|]. split; [by eexists|]. case_decide as Hd; [by right|left].
    split; [done|]. by apply eq_None_not_Some.
Qed.

Lemma mkt_frame_columns M c :
  is_Some (mkt_frame M !! c)
  ↔ c = "date" ∨ c = "campaign" ∨ c = "user_id" ∨ c = "revenue".
Proof.
  unfold mkt_frame. rewrite !lookup_insert_is_Some, lookup_singleton_is_Some.
  split; [naive_solver|].
  intros [->|[->|[->| ->]]]; naive_solver.
Qed.

(** X4: the finance frame has to name its revenue column [revenue]: with
    a finance frame that has neither a column [revenue] nor a column
    [revenue_fin], whatever else it holds, [calculate_roas] raises. *)
Theorem calculate_roas_needs_revenue M S (df_fin : DataFrame) :
  df_fin !! "revenue" = None →
  df_fin !! "revenue_fin" = None →
  ∃ e, calculate_roas (mkt_frame M) df_fin (spend_frame S) = Raise e.
Proof.
  intros Hrev Hfin. unfold calculate_roas.
  change (groupby_sum (spend_frame S) "campaign" "spend")
    with (Ok (group_sum (option_map VStr <$> (s_campaign <$> S)) (s_spend <$> S))).
  change (groupby_sum (mkt_frame M) "campaign" "revenue")
    with (Ok (group_sum (option_map VStr <$> (m_campaign <$> M)) (m_revenue <$> M))).
  cbn [mbind result_bind].
  destruct (merge_inner _ _ _ _ _) as [merged|e] eqn:Hmerge; [|by eexists].
  cbn [mbind result_bind].
  assert (merged !! "revenue_fin" = None) as Hnone.
  { apply eq_None_not_Some. intros Hsome.
    destruct (merge_inner_columns _ _ _ _ _ _ _ Hmerge Hsome)
      as [(c' & Hl & Hc)|(c' & Hne & Hr & Hc)]; clear Hmerge.
    - apply mkt_frame_columns in Hl.
      destruct Hl as [->|[->|[->| ->]]], Hc as [Hc|(_ & _ & Hc)]; discriminate.
    - destruct Hc as [[<- _]|[Hl Hc]].
      + rewrite Hfin in Hr. by destruct Hr.
      + apply mkt_frame_columns in Hl.
        destruct Hl as [->|[->|[->| ->]]]; try discriminate.
        rewrite Hrev in Hr. by destruct Hr. }
  clear Hmerge. unfold groupby_sum.
  destruct (getitem merged "campaign") as [k|e]; [|by eexists].
  cbn [mbind result_bind]. unfold getitem at 1. rewrite Hnone. by eexists.
Qed.

Lemma calculate_roas_needs_revenue_witness :
  ∃ e, calculate_roas (mkt_frame mkt_A) (fin_renamed fin_A) (spend_frame spend_A) = Raise e.
Proof.
  apply (calculate_roas_needs_revenue mkt_A spend_A (fin_renamed fin_A)); reflexivity.
Defined.
(** ** The CAC table: values and attribution *)

(** The CAC table has a row only under the name of a campaign. *)
Lemma calculate_cac_other_keys S E h df_spend df_funnel k :
  df_spend ≠ df_funnel →
  h !! df_spend = Some (spend_frame S) →
  h !! df_funnel = Some (funnel_frame E) →
  (∀ c, k ≠ VStr c) →
  ∃ cac_df, (calculate_cac df_spend df_funnel h).2 = Ok cac_df ∧ cac_df !! k = None.
Proof.
  intros Hne Hs Hf Hk. rewrite calculate_cac_run, Hs, daily_campaigns_eval, Hf.
  change (getitem (funnel_frame E) "timestamp" ≫= dt) with (Ok (e_timestamp <$> E)).
  cbv zeta. unfold cac_after_write.
  rewrite bind_deref, lookup_alter_eq, Hf. cbn [fmap option_fmap option_map].
  rewrite bind_lift, acquisitions_eval.
  rewrite bind_deref, lookup_alter_ne, Hs by done.
  rewrite bind_lift.
  change (groupby_sum (spend_frame S) "campaign" "spend")
    with (Ok (group_sum (option_map VStr <$> (s_campaign <$> S)) (s_spend <$> S))).
  eexists. split; [reflexivity|].
  unfold cac_table. rewrite lookup_merge.
  rewrite <-list_fmap_compose, (group_sum_rows (option_map VStr ∘ s_campaign) s_spend).
  rewrite str_group_other by done. by destruct (_ !! k).
Qed.

(** X5: every row of the CAC table is the row of a campaign of Spend; its
    [cac] is the total spend of the campaign divided by its customers, and
    with 0 customers the float quotient by zero, not a fault. *)
Theorem cac_is_spend_per_customer S E h df_spend df_funnel :
  df_spend ≠ df_funnel →
  h !! df_spend = Some (spend_frame S) →
  h !! df_funnel = Some (funnel_frame E) →
  ∃ h' cac_df,
    calculate_cac df_spend df_funnel h = (h', Ok cac_df)
    ∧ ∀ k row, cac_df !! k = Some row →
        ∃ c, k = VStr c
             ∧ spend_of S c ≠ []
             ∧ cac row = if decide (customers row = 0)
                         then div_by_zero (campaign_spend S c)
                         else Fin (campaign_spend S c / Qc_of_nat (customers row))%Qc.
Proof.
  intros Hne Hs Hf.
  destruct (calculate_cac_tables S E h df_spend df_funnel Hne Hs Hf)
    as (h' & cac_df & Hrun & Hlook).
  exists h', cac_df. split; [exact Hrun|]. intros k row Hrow.
  assert (∃ c, k = VStr c) as [c ->].
  { destruct k as [q|c|t]; [|by eauto|]; exfalso.
    - destruct (calculate_cac_other_keys S E h df_spend df_funnel (VNum q) Hne Hs Hf)
        as (cac_df' & Hrun' & Hnone); [done|].
      rewrite Hrun in Hrun'. clear Hrun. simpl in Hrun'. congruence.
    - destruct (calculate_cac_other_keys S E h df_spend df_funnel (VTime t) Hne Hs Hf)
        as (cac_df' & Hrun' & Hnone); [done|].
      rewrite Hrun in Hrun'. clear Hrun. simpl in Hrun'. congruence. }
  clear Hrun. exists c. split; [done|]. rewrite Hlook in Hrow.
  pose proof (attributed_spend S E c) as Hspend.
  destruct (attributed S E c) as [|e evs]; [done|].
  split; [by apply Hspend|]. cbv zeta in Hrow. injection Hrow as <-. simpl.
  unfold fdiv, div_by_zero, Qc_of_nat.
  destruct (decide (size (users (e :: evs)) = 0)) as [->|Hn]; [done|].
  rewrite decide_False; [done|].
  rewrite <-Z2Qc_inj_0. intros Heq%Z2Qc_inj. lia.
Qed.

Lemma cac_is_spend_per_customer_witness :
  ∃ h' cac_df,
    calculate_cac 1%positive 2%positive (two_frames spend_A funnel_U1) = (h', Ok cac_df)
    ∧ ∀ k row, cac_df !! k = Some row →
        ∃ c, k = VStr c
             ∧ spend_of spend_A c ≠ []
             ∧ cac row = if decide (customers row = 0)
                         then div_by_zero (campaign_spend spend_A c)
                         else Fin (campaign_spend spend_A c / Qc_of_nat (customers row))%Qc.
Proof.
  apply (cac_is_spend_per_customer spend_A funnel_U1 (two_frames spend_A funnel_U1)
           1%positive 2%positive).
  - discriminate.
  - reflexivity.
  - reflexivity.
Defined.

(** X6: attribution is by day only: a checkout of a user counts as a
    customer of every campaign that has a Spend row on the day of the
    event. *)
Theorem checkout_counts_for_every_campaign S E h df_spend df_funnel e u :
  df_spend ≠ df_funnel →
  h !! df_spend = Some (spend_frame S) →
  h !! df_funnel = Some (funnel_frame E) →
  e ∈ E →
  e_event_type e = Some "checkout" →
  e_user_id e = Some u →
  ∃ h' cac_df,
    calculate_cac df_spend df_funnel h = (h', Ok cac_df)
    ∧ ∀ s c, s ∈ S → s_campaign s = Some c → s_date s = event_date e →
        ∃ row, cac_df !! VStr c = Some row
               ∧ u ∈ users (attributed S E c)
               ∧ customers row = size (users (attributed S E c))
               ∧ (1 ≤ customers row)%nat.
Proof.
  intros Hne Hs Hf He Hck Hu.
  destruct (calculate_cac_tables S E h df_spend df_funnel Hne Hs Hf)
    as (h' & cac_df & Hrun & Hlook).
  exists h', cac_df. split; [exact Hrun|]. clear Hrun. intros s c Hin Hc Hd.
  assert (e ∈ attributed S E c) as Hatt by (apply elem_of_attributed; eauto 10).
  assert (u ∈ users (attributed S E c)) as Huser.
  { unfold users. rewrite elem_of_list_to_set, list_elem_of_omap. eauto. }
  rewrite Hlook. destruct (attributed S E c) as [|e' evs] eqn:Heq.
  { by apply not_elem_of_nil in Hatt. }
  eexists. split; [reflexivity|]. cbv zeta. simpl.
  split; [done|]. split; [done|].
  assert (size (users (e' :: evs)) ≠ 0); [|lia].
  apply size_non_empty_iff. intros Hempty. 
  apply (proj1 (elem_of_equiv_empty _) Hempty u). done.
Qed.

Lemma checkout_counts_for_every_campaign_witness :
  ∃ h' cac_df,
    calculate_cac 1%positive 2%positive (two_frames spend_A_B funnel_U1) = (h', Ok cac_df)
    ∧ (∃ row, cac_df !! VStr "A" = Some row ∧ (1 ≤ customers row)%nat)
    ∧ (∃ row, cac_df !! VStr "B" = Some row ∧ (1 ≤ customers row)%nat).
Proof.
  destruct (checkout_counts_for_every_campaign spend_A_B funnel_U1
              (two_frames spend_A_B funnel_U1) 1%positive 2%positive
              (FunnelRow (Some (1 * ns_per_day + 3600000000000)%Z) (Some "U1") (Some "checkout"))
              "U1")
    as (h' & cac_df & Hrun & Hall).
  - discriminate.
  - reflexivity.
  - reflexivity.
  - left.
  - reflexivity.
  - reflexivity.
  - exists h', cac_df. split; [exact Hrun|]. clear Hrun. split.
    + destruct (Hall (SpendRow (day 1) (Some "A") (amount 100)) "A")
        as (row & Hrow & _ & _ & Hone); [left|reflexivity|reflexivity|]. eauto.
    + destruct (Hall (SpendRow (day 1) (Some "B") (amount 30)) "B")
        as (row & Hrow & _ & _ & Hone); [right; left|reflexivity|reflexivity|]. eauto.
Defined.

(** ** calculate_cac: what a failed call leaves behind *)

(** X7: when the Spend frame lacks the column [date] or [campaign], or the
    Funnel frame lacks [timestamp], [calculate_cac] raises a [KeyError] and
    has written nothing. *)
Theorem calculate_cac_missing_column h df_spend df_funnel spend funnel :
  h !! df_spend = Some spend →
  h !! df_funnel = Some funnel →
  spend !! "date" = None ∨ spend !! "campaign" = None ∨ funnel !! "timestamp" = None →
  ∃ key, calculate_cac df_spend df_funnel h = (h, Raise (KeyError key))
         ∧ (key = "date" ∨ key = "campaign" ∨ key = "timestamp").
Proof.
  intros Hs Hf Hmiss. rewrite calculate_cac_run, Hs, Hf.
  unfold daily_campaigns_of, getitem.
  destruct (spend !! "date") as [d|]; [|by eauto].
  cbn [mbind result_bind].
  destruct (spend !! "campaign") as [c|]; [|by eauto 10].
  cbn [mbind result_bind].
  destruct (funnel !! "timestamp") as [ts|]; [|by eauto 10].
  by destruct Hmiss as [?|[?|?]].
Qed.

Lemma calculate_cac_missing_column_witness :
  let h : heap := <[1%positive := spend_frame spend_A]> {[2%positive := fin_frame fin_A]} in
  ∃ key, calculate_cac 1%positive 2%positive h = (h, Raise (KeyError key))
         ∧ (key = "date" ∨ key = "campaign" ∨ key = "timestamp").
Proof.
  intros h.
  apply (calculate_cac_missing_column h 1%positive 2%positive
           (spend_frame spend_A) (fin_frame fin_A)).
  - reflexivity.
  - reflexivity.
  - right; right. reflexivity.
Defined.

Lemma daily_campaigns_columns S dc c :
  daily_campaigns_of (spend_frame S) = Ok dc →
  is_Some (dc !! c) → c = "date" ∨ c = "campaign".
Proof.
  rewrite daily_campaigns_eval. intros [= <-].
  rewrite lookup_insert_is_Some, lookup_singleton_is_Some. naive_solver.
Qed.

(** X8: the call is not atomic.  With a Funnel frame that has its
    timestamps and no column [event_type], [calculate_cac] raises, and the
    date column it wrote before stays in the frame of the caller. *)
Theorem calculate_cac_fault_after_write S h df_spend df_funnel funnel ts :
  df_spend ≠ df_funnel →
  h !! df_spend = Some (spend_frame S) →
  h !! df_funnel = Some funnel →
  funnel !! "timestamp" = Some (Datetime64 ts) →
  funnel !! "event_type" = None →
  ∃ e, calculate_cac df_spend df_funnel h
       = (<[df_funnel := <["date" := Datetime64 (option_map to_date <$> ts)]> funnel]> h,
          Raise e)
       ∧ (e = MergeError ∨ e = KeyError "event_type").
Proof.
  intros Hne Hs Hf Hts Hev. rewrite calculate_cac_run, Hs, Hf.
  destruct (daily_campaigns_of (spend_frame S)) as [dc|] eqn:Hdc.
  2:{ by rewrite daily_campaigns_eval in Hdc. }
  unfold getitem at 1. rewrite Hts. cbn [mbind result_bind dt]. cbv zeta.
  set (col := Datetime64 (option_map to_date <$> ts)).
  assert (alter (insert "date" col) df_funnel h = <[df_funnel := <["date" := col]> funnel]> h)
    as ->.
  { apply map_eq. intros l. destruct (decide (l = df_funnel)) as [->|Hl].
    - by rewrite lookup_alter_eq, lookup_insert_eq, Hf.
    - by rewrite lookup_alter_ne, lookup_insert_ne. }
  unfold cac_after_write. rewrite bind_deref, lookup_insert_eq, bind_lift.
  unfold acquisitions_of.
  destruct (merge_inner _ dc _ _ _) as [merged|e] eqn:Hmerge.
  2:{ cbn [mbind result_bind]. 
      assert (e = MergeError) as ->; [|by eauto].
      revert Hmerge. unfold merge_inner, getitem. rewrite lookup_insert_eq.
      rewrite daily_campaigns_eval in Hdc. injection Hdc as <-.
      rewrite lookup_insert_eq. cbn [mbind result_bind col_dtype].
      rewrite decide_True by done. case_decide; [done|]. by intros [= <-]. }
  cbn [mbind result_bind].
  assert (merged !! "event_type" = None) as Hnone.
  { apply eq_None_not_Some. intros Hsome.
    destruct (merge_inner_columns _ _ _ _ _ _ _ Hmerge Hsome)
      as [(c' & Hl & Hc)|(c' & Hc' & Hr & Hc)]; clear Hmerge.
    - destruct Hc as [Hc|(_ & Hr & Hc)].
      + subst c'. rewrite lookup_insert_ne, Hev in Hl by done. by destruct Hl.
      + apply (daily_campaigns_columns _ _ _ Hdc) in Hr as [->| ->]; discriminate.
    - apply (daily_campaigns_columns _ _ _ Hdc) in Hr as [->| ->]; [done|].
      destruct Hc as [[Hc _]|[_ Hc]]; discriminate. }
  unfold getitem. rewrite Hnone. cbn [mbind result_bind]. eauto.
Qed.

Lemma calculate_cac_fault_after_write_witness :
  let funnel : DataFrame := {["timestamp" := Datetime64 [day 1]]} in
  let h : heap := <[1%positive := spend_frame spend_A]> {[2%positive := funnel]} in
  ∃ e, calculate_cac 1%positive 2%positive h
       = (<[2%positive := <["date" := Datetime64 (option_map to_date <$> [day 1])]> funnel]> h,
          Raise e)
       ∧ (e = MergeError ∨ e = KeyError "event_type").
Proof.
  intros funnel h.
  apply (calculate_cac_fault_after_write spend_A h 1%positive 2%positive funnel [day 1]).
  - discriminate.
  - reflexivity.
  - reflexivity.
  - reflexivity.
  - reflexivity.
Defined.

(** ** The anomalies: grouping, sample size, monotonicity *)

Lemma fmap_inj_on_NoDup {A B} (f : A → B) (l : list A) a b :
  NoDup (f <$> l) → a ∈ l → b ∈ l → f a = f b → a = b.
Proof.
  induction l as [|x l IH]; intros Hnd Ha Hb Heq.
  - by apply not_elem_of_nil in Ha.
  - rewrite fmap_cons in Hnd. inversion_clear Hnd as [|? ? Hx Hnd'].
    specialize (IH Hnd').
    apply elem_of_cons in Ha as [->|Ha], Hb as [->|Hb]; [done| | |by apply IH].
    + destruct Hx. rewrite Heq. by apply list_elem_of_fmap_2.
    + destruct Hx. rewrite <-Heq. by apply list_elem_of_fmap_2.
Qed.

Lemma NoDup_fmap_filter_app {A B} (f : A → B) (P Q : A → Prop)
    `{!∀ a, Decision (P a), !∀ a, Decision (Q a)} (l : list A) :
  NoDup (f <$> l) →
  (∀ a, P a → Q a → False) →
  NoDup ((f <$> filter P l) ++ (f <$> filter Q l)).
Proof.
  intros Hnd Hdisj. apply list.NoDup_app. split; [|split].
  - apply (sublist_NoDup _ (f <$> l)); [exact Hnd|apply fmap_sublist, sublist_filter].
  - intros x (a & -> & [Ha Hal]%list_elem_of_filter)%list_elem_of_fmap
             (b & Hb & [Hqb Hbl]%list_elem_of_filter)%list_elem_of_fmap.
    assert (a = b) as -> by by eapply fmap_inj_on_NoDup.
    by eapply Hdisj.
  - apply (sublist_NoDup _ (f <$> l)); [exact Hnd|apply fmap_sublist, sublist_filter].
Qed.

(** The merged revenue frame has one row for a date. *)
Lemma outer_merge_NoDup (a b : Series Qc) :
  NoDup (comp_date <$> outer_merge_fillna a b).
Proof.
  unfold outer_merge_fillna. rewrite <-list_fmap_compose.
  change (comp_date ∘ _) with (fst : value * (Qc * Qc) → value).
  rewrite merge_sort_Permutation. apply NoDup_fst_map_to_list.
Qed.

Lemma revenue_anomalies_dates rc :
  date <$> (revenue_inflation rc ++ missing_invoices rc)
  = (Some ∘ comp_date
       <$> filter (λ row, 0 < fin_revenue row ∧ Q2Qc (2 # 10) < variance row)%Qc rc)
    ++ (Some ∘ comp_date
          <$> filter (λ row, fin_revenue row = 0 ∧ 0 < mkt_revenue row)%Qc rc).
Proof.
  unfold revenue_inflation, missing_invoices.
  rewrite fmap_app, <-!list_fmap_compose, list_filter_filter. f_equal.
  f_equal. apply list_filter_iff. naive_solver.
Qed.

(** X9: the anomalies come grouped by type, Revenue Inflation, then
    Missing Invoice, then Outlier Spend; a date has at most one anomaly of
    the first two types together, and there is one Outlier Spend anomaly
    for every flagged row, in the order of the Spend table. *)
Theorem anomalies_grouped_by_type M F S :
  ∃ inflation missing outliers,
    detect_misreporting (mkt_frame M) (fin_frame F) (spend_frame S)
    = Ok (inflation ++ missing ++ outliers)
    ∧ Forall (λ a, anomaly_type a = RevenueInflation) inflation
    ∧ Forall (λ a, anomaly_type a = MissingInvoice) missing
    ∧ Forall (λ a, anomaly_type a = OutlierSpend) outliers
    ∧ NoDup (date <$> (inflation ++ missing))
    ∧ outliers
      = outlier_of <$> filter (λ r, gt_threshold (s_spend r) (sample_threshold S)) S.
Proof.
  eexists _, _, _. split; [apply detect_misreporting_tables|].
  split; [|split; [|split; [|split; [|done]]]].
  - apply list.Forall_forall. by intros a (row & _ & _ & _ & ->)%elem_of_revenue_inflation.
  - apply list.Forall_forall. by intros a (row & _ & _ & _ & ->)%elem_of_missing_invoices.
  - apply list.Forall_forall. by intros a (r & -> & _)%list_elem_of_fmap.
  - rewrite revenue_anomalies_dates.
    apply (NoDup_fmap_filter_app (Some ∘ comp_date)).
    + rewrite list_fmap_compose. apply (NoDup_fmap_2 Some), outer_merge_NoDup.
    + intros row [Hpos _] [Hzero _]. rewrite Hzero in Hpos. by apply Qclt_not_eq in Hpos.
Qed.

Lemma sq_dev_le_sum m ys x :
  x ∈ ys → ((x - m) * (x - m) ≤ sum_sq_dev m ys)%Qc.
Proof.
  unfold sum_sq_dev. induction ys as [|y ys IH]; intros Hx.
  - by apply not_elem_of_nil in Hx.
  - cbn [fmap list_fmap sumQc foldr]. fold (sumQc ((λ y, (y - m) * (y - m))%Qc <$> ys)).
    apply elem_of_cons in Hx as [->|Hx].
    + rewrite <-(Qcplus_0_r ((y - m) * (y - m))) at 1.
      apply Qcplus_le_compat; [apply Qcle_refl | apply (sum_sq_dev_nonneg m ys)].
    + rewrite <-(Qcplus_0_l ((x - m) * (x - m))).
      apply Qcplus_le_compat; [apply Qcsquare_nonneg | by apply IH].
Qed.

Lemma elem_of_present (xs : list (option Qc)) x : x ∈ present xs ↔ Some x ∈ xs.
Proof.
  unfold present. rewrite list_elem_of_omap. split.
  - by intros (o & Ho & ->).
  - intros Hx. by exists (Some x).
Qed.

(** With at most five values no value exceeds the mean by more than two
    sample standard deviations. *)
Lemma few_values_not_exceeded (xs : list (option Qc)) x :
  (length (present xs) ≤ 5)%nat →
  x ∈ xs →
  gt_threshold x (outlier_threshold xs) = false.
Proof.
  intros Hlen Hx. destruct x as [x|]; [|done].
  unfold outlier_threshold, var.
  destruct (mean xs) as [m|]; [|done]. cbn [mbind option_bind].
  case_decide as Hn; [done|]. cbn [mbind option_bind gt_threshold].
  unfold exceeds. cbn [th_mean th_var].
  apply andb_false_intro2, bool_decide_eq_false, Qcle_not_lt.
  eapply Qcle_trans; [apply (sq_dev_le_sum m (present xs) x), elem_of_present, Hx|].
  set (ss := sum_sq_dev m (present xs)).
  set (k := Qc_of_nat (length (present xs) - 1)).
  assert (0 < k)%Qc as Hk.
  { unfold k, Qc_of_nat. rewrite <-Z2Qc_inj_0. apply (proj1 (Z2Qc_inj_lt 0 _)). lia. }
  assert (k ≤ Qc_of_Z 4)%Qc as Hk4.
  { unfold k, Qc_of_nat. apply (proj1 (Z2Qc_inj_le _ 4)). lia. }
  apply (Qcmult_lt_0_le_reg_r _ _ k Hk).
  replace (Qc_of_Z 4 * (ss / k) * k)%Qc with (Qc_of_Z 4 * ss)%Qc.
  - rewrite (Qcmult_comm ss k).
    apply Qcmult_le_compat_r; [done | apply sum_sq_dev_nonneg].
  - field. by apply not_symmetry, Qclt_not_eq.
Qed.

(** X10: a Spend table with at most five spend values never gives an
    Outlier Spend anomaly, however large one of the values is. *)
Theorem few_spend_values_no_outlier M F S :
  (length (present (s_spend <$> S)) ≤ 5)%nat →
  ∃ anomalies,
    detect_misreporting (mkt_frame M) (fin_frame F) (spend_frame S) = Ok anomalies
    ∧ ∀ a, a ∈ anomalies → anomaly_type a ≠ OutlierSpend.
Proof.
  intros Hlen. eexists. split; [apply detect_misreporting_tables|].
  intros a Hin Hkind. apply elem_of_anomalies in Hin.
  destruct Hin as [[Hk _]|[[Hk _]|[_ (r & Hr & Hgt & _)]]]; [congruence|congruence|].
  change (sample_threshold S) with (outlier_threshold (s_spend <$> S)) in Hgt.
  rewrite few_values_not_exceeded in Hgt; [done..|].
  by apply list_elem_of_fmap_2.
Qed.

Lemma few_spend_values_no_outlier_witness :
  ∃ anomalies,
    detect_misreporting (mkt_frame mkt_A) (fin_frame fin_A) (spend_frame spend_scenario)
    = Ok anomalies
    ∧ ∀ a, a ∈ anomalies → anomaly_type a ≠ OutlierSpend.
Proof.
  apply (few_spend_values_no_outlier mkt_A fin_A spend_scenario).
  vm_compute. lia.
Defined.

(** Six values are enough for a flag. *)
Example six_spend_values_outlier :
  detect_misreporting (mkt_frame []) (fin_frame []) (spend_frame spend_spike)
  = Ok [outlier_of (spend_on_day_1 1000)].
Proof. vm_compute. reflexivity. Qed.

(** A value above a flagged value is flagged. *)
Lemma gt_threshold_mono (x x' : Qc) (t : option threshold) :
  (∀ th, t = Some th → (0 ≤ th_var th)%Qc) →
  (x ≤ x')%Qc →
  gt_threshold (Some x) t = true → gt_threshold (Some x') t = true.
Proof.
  intros Hv Hle. rewrite !gt_threshold_spec by done.
  intros (y & th & [= <-] & -> & Hlt). exists x', th. split; [done|]. split; [done|].
  apply Q2R_Qc_le in Hle. lra.
Qed.

(** X11: the flagged rows are the rows of highest spend: when a row is
    reported as Outlier Spend, every row that spends at least as much is
    reported too. *)
Theorem outliers_upward_closed M F S r r' x x' :
  r ∈ S → r' ∈ S →
  s_spend r = Some x → s_spend r' = Some x' →
  (x ≤ x')%Qc →
  ∃ anomalies,
    detect_misreporting (mkt_frame M) (fin_frame F) (spend_frame S) = Ok anomalies
    ∧ (outlier_of r ∈ anomalies → outlier_of r' ∈ anomalies).
Proof.
  intros Hr Hr' Hx Hx' Hle. eexists. split; [apply detect_misreporting_tables|].
  rewrite !elem_of_anomalies.
  intros [[Hk _]|[[Hk _]|[_ (r0 & Hr0 & Hgt & Heq)]]]; [done|done|].
  right; right. split; [done|]. exists r'. split; [done|]. split; [|done].
  assert (s_spend r0 = Some x) as Hx0.
  { destruct (s_spend r0) as [x0|] eqn:Hs0; [|done].
    injection Heq as _ Heq. rewrite Hx, Hs0 in Heq. simpl in Heq. by subst. }
  rewrite Hx0 in Hgt. rewrite Hx'. apply Is_true_true. apply Is_true_true in Hgt.
  eapply gt_threshold_mono; [|exact Hle|exact Hgt].
  intros th. apply sample_threshold_var.
Qed.

Lemma outliers_upward_closed_witness :
  ∃ anomalies,
    detect_misreporting (mkt_frame []) (fin_frame []) (spend_frame spend_two_spikes)
    = Ok anomalies
    ∧ outlier_of (spend_on_day_1 1000) ∈ anomalies
    ∧ outlier_of (spend_on_day_1 1100) ∈ anomalies.
Proof.
  destruct (outliers_upward_closed [] [] spend_two_spikes
              (spend_on_day_1 1000) (spend_on_day_1 1100) (Qc_of_Z 1000) (Qc_of_Z 1100))
    as (anomalies & Hcalc & Hup).
  - do 12 apply list_elem_of_further. apply list_elem_of_here.
  - do 13 apply list_elem_of_further. apply list_elem_of_here.
  - reflexivity.
  - reflexivity.
  - by_compute.
  - exists anomalies. split; [exact Hcalc|].
    assert (outlier_of (spend_on_day_1 1000) ∈ anomalies) as Hin.
    { assert (detect_misreporting (mkt_frame []) (fin_frame []) (spend_frame spend_two_spikes)
              = Ok [outlier_of (spend_on_day_1 1000); outlier_of (spend_on_day_1 1100)])
        as Heval by (vm_compute; reflexivity).
      rewrite Heval in Hcalc. clear Heval. injection Hcalc as <-.
      apply list_elem_of_here. }
    split; [exact Hin|]. apply Hup, Hin.
Defined.

(** X12: the date column of Spend is read only for an outlier.  A Spend
    frame without that column gives the revenue anomalies as long as no
    spend exceeds the threshold, and a [KeyError] as soon as one does. *)
Theorem outliers_need_the_date_column M F (df_spend : DataFrame) spend :
  df_spend !! "spend" = Some (Float64 spend) →
  df_spend !! "date" = None →
  detect_misreporting (mkt_frame M) (fin_frame F) df_spend
  = if decide (Exists (λ x, gt_threshold x (outlier_threshold spend) = true) spend)
    then Raise (KeyError "date")
    else Ok (revenue_inflation (revenue_comp_of M F)
             ++ missing_invoices (revenue_comp_of M F)).
Proof.
  intros Hspend Hdate.
  trans (anomalies3 ← outlier_spend df_spend;
         Ok (revenue_inflation (revenue_comp_of M F)
             ++ missing_invoices (revenue_comp_of M F) ++ anomalies3)); [reflexivity|].
  unfold outlier_spend, getitem. rewrite Hspend, Hdate. cbn [mbind result_bind as_float64].
  assert (where_true ((λ x, gt_threshold x (outlier_threshold spend)) <$> spend) = []
          ↔ ¬ Exists (λ x, gt_threshold x (outlier_threshold spend) = true) spend) as Hnil.
  { generalize (outlier_threshold spend). intros t.
    clear. induction spend as [|x xs IH]; [rewrite Exists_nil; naive_solver|].
    cbn [fmap list_fmap where_true]. rewrite Exists_cons.
    destruct (gt_threshold x t); simpl.
    - split; [done|]. intros []. by left.
    - split.
      + intros Hnil%fmap_nil_inv [Hx|Hex]; [done|]. by apply (proj1 IH Hnil).
      + intros Hno. rewrite (proj2 IH); [done|]. intros Hex. apply Hno. by right. }
  destruct (where_true _) as [|i idx].
  - rewrite decide_False by by apply Hnil. cbn [mbind result_bind]. by rewrite app_nil_r.
  - rewrite decide_True; [done|].
    destruct (decide (Exists (λ x, gt_threshold x (outlier_threshold spend) = true) spend))
      as [|Hno]; [done|].
    by apply Hnil in Hno.
Qed.

Lemma outliers_need_the_date_column_witness :
  detect_misreporting (mkt_frame mkt_A) (fin_frame fin_A)
    {["spend" := Float64 (s_spend <$> spend_spike)]}
  = Raise (KeyError "date").
Proof.
  rewrite (outliers_need_the_date_column mkt_A fin_A _ (s_spend <$> spend_spike));
    [|reflexivity..].
  apply decide_True. by_compute.
Defined.

(** ** Loading the files *)

Section loading_properties.
Variable read_csv : string → result DataFrame.
Variable to_datetime : column → result column.

Lemma convert_columns_spec cols cols' :
  convert_columns to_datetime cols = Ok cols' →
  Forall2 (λ x y, y.1 = x.1
                  ∧ if date_like x.1 then to_datetime x.2 = Ok y.2 else y.2 = x.2)
    cols cols'.
Proof.
  revert cols'. induction cols as [|[c col] cols IH]; intros cols'.
  - intros [= <-]. constructor.
  - cbn [convert_columns]. fold (date_like c).
    destruct (date_like c) eqn:Hd.
    + destruct (to_datetime col) as [col'|] eqn:Hcol; [|done]. cbn [mbind result_bind].
      destruct (convert_columns to_datetime cols) as [rest|]; [|done].
      intros [= <-]. constructor; [|by apply IH]. simpl. by rewrite Hd.
    + cbn [mbind result_bind].
      destruct (convert_columns to_datetime cols) as [rest|]; [|done].
      intros [= <-]. constructor; [|by apply IH]. simpl. by rewrite Hd.
Qed.

(** X13: a loaded frame has the columns of the file; a column whose name
    contains [date] or [timestamp] holds the conversion of the column of the
    file, every other column is the column of the file. *)
Theorem load_frame_columns data_dir filename df df' :
  read_csv (data_dir +:+ filename) = Ok df →
  load_frame read_csv to_datetime data_dir filename = Ok df' →
  dom df' = dom df
  ∧ ∀ c, if date_like c
         then ∀ col, df !! c = Some col →
                ∃ col', to_datetime col = Ok col' ∧ df' !! c = Some col'
         else df' !! c = df !! c.
Proof.
  intros Hread. unfold load_frame. rewrite Hread. cbn [mbind result_bind].
  destruct (convert_columns to_datetime (map_to_list df)) as [cols'|] eqn:Hconv; [|done].
  intros [= <-]. apply convert_columns_spec in Hconv.
  assert (cols'.*1 = (map_to_list df).*1) as Hnames.
  { clear -Hconv. induction Hconv as [|x y l k [Hxy _] _ IH]; [done|].
    rewrite !fmap_cons. by f_equal. }
  assert (NoDup cols'.*1) as Hnd by (rewrite Hnames; apply NoDup_fst_map_to_list).
  assert (∀ c col', (list_to_map cols' : DataFrame) !! c = Some col'
            ↔ ∃ col, df !! c = Some col
                     ∧ if date_like c then to_datetime col = Ok col' else col' = col)
    as Hlook.
  { intros c col'. rewrite <-elem_of_list_to_map by done.
    setoid_rewrite <-elem_of_map_to_list. clear -Hconv.
    induction Hconv as [|[c1 col1] [c2 col2] l k [Hc Hcol] _ IH]; simpl in *.
    - split; [by intros ?%not_elem_of_nil|by intros (? & ?%not_elem_of_nil & _)].
    - subst c2. rewrite elem_of_cons, IH. setoid_rewrite elem_of_cons. split.
      + intros [[= -> ->]|(col & Hin & Hrel)].
        * exists col1. split; [by left|done].
        * exists col. split; [by right|done].
      + intros (col & [[= -> ->]|Hin] & Hrel).
        * left. f_equal. destruct (date_like c1); congruence.
        * right. eauto. }
  split.
  - apply set_eq. intros c. rewrite !elem_of_dom. split.
    + intros [col' (col & Hcol & _)%Hlook]. by eexists.
    + intros [col Hcol].
      assert (∃ y, y ∈ cols' ∧ y.1 = c) as ([c' col'] & Hin & Hc).
      { assert (c ∈ cols'.*1) as (y & -> & Hy)%list_elem_of_fmap; [|by eauto].
        rewrite Hnames. apply list_elem_of_fmap. exists (c, col).
        split; [done|]. by apply elem_of_map_to_list. }
      simpl in Hc. subst c'. exists col'. by apply elem_of_list_to_map.
  - intros c. destruct (date_like c) eqn:Hd.
    + intros col Hcol.
      assert (is_Some ((list_to_map cols' : DataFrame) !! c)) as [col' Hcol'].
      { assert (∃ y, y ∈ cols' ∧ y.1 = c) as ([c' col'] & Hin & Hc).
        { assert (c ∈ cols'.*1) as (y & -> & Hy)%list_elem_of_fmap; [|by eauto].
          rewrite Hnames. apply list_elem_of_fmap. exists (c, col).
          split; [done|]. by apply elem_of_map_to_list. }
        simpl in Hc. subst c'. exists col'. by apply elem_of_list_to_map. }
      exists col'. split; [|done].
      apply Hlook in Hcol' as (col0 & Hcol0 & Hrel). rewrite Hd in Hrel. congruence.
    + apply option_eq. intros col'. rewrite Hlook, Hd. naive_solver.
Qed.

Lemma load_files_cons data_dir filename rest dataframes h :
  load_files read_csv to_datetime data_dir (filename :: rest) dataframes h
  = match load_frame read_csv to_datetime data_dir filename with
    | Ok df =>
        load_files read_csv to_datetime data_dir rest
          (<[stem filename := fresh (dom h)]> dataframes) (<[fresh (dom h) := df]> h)
    | Raise e => (h, Raise e)
    end.
Proof.
  cbn [load_files]. unfold load_frame. rewrite bind_lift.
  destruct (read_csv _) as [df|]; [|done]. cbn [mbind result_bind]. rewrite bind_lift.
  by destruct (convert_columns _ _) as [cols|].
Qed.

(** The run of [load_all_data], file by file. *)
Lemma load_all_data_run data_dir h :
  load_all_data read_csv to_datetime data_dir h
  = match load_frame read_csv to_datetime data_dir "marketing_spend.csv" with
    | Raise e => (h, Raise e)
    | Ok df1 =>
        let l1 := fresh (dom h) in
        let h1 := <[l1 := df1]> h in
        match load_frame read_csv to_datetime data_dir "funnel_events.csv" with
        | Raise e => (h1, Raise e)
        | Ok df2 =>
            let l2 := fresh (dom h1) in
            let h2 := <[l2 := df2]> h1 in
            match load_frame read_csv to_datetime data_dir "revenue_marketing.csv" with
            | Raise e => (h2, Raise e)
            | Ok df3 =>
                let l3 := fresh (dom h2) in
                let h3 := <[l3 := df3]> h2 in
                match load_frame read_csv to_datetime data_dir "revenue_finance.csv" with
                | Raise e => (h3, Raise e)
                | Ok df4 =>
                    let l4 := fresh (dom h3) in
                    (<[l4 := df4]> h3,
                     Ok (<["revenue_finance" := l4]> (<["revenue_marketing" := l3]>
                          (<["funnel_events" := l2]> {["marketing_spend" := l1]}))))
                end
            end
        end
    end.
Proof.
  unfold load_all_data, files_to_load. rewrite load_files_cons.
  destruct (load_frame _ _ _ "marketing_spend.csv") as [df1|]; [|done].
  rewrite load_files_cons.
  destruct (load_frame _ _ _ "funnel_events.csv") as [df2|]; [|done].
  rewrite load_files_cons.
  destruct (load_frame _ _ _ "revenue_marketing.csv") as [df3|]; [|done].
  rewrite load_files_cons.
  by destruct (load_frame _ _ _ "revenue_finance.csv") as [df4|].
Qed.

(** Four frames allocated one after the other are new and different. *)
Lemma fresh_four (h : heap) (df1 df2 df3 : DataFrame) :
  let l1 := fresh (dom h) in
  let h1 := <[l1 := df1]> h in
  let l2 := fresh (dom h1) in
  let h2 := <[l2 := df2]> h1 in
  let l3 := fresh (dom h2) in
  let h3 := <[l3 := df3]> h2 in
  let l4 := fresh (dom h3) in
  NoDup [l1; l2; l3; l4] ∧ ∀ l, l ∈ [l1; l2; l3; l4] → h !! l = None.
Proof.
  intros l1 h1 l2 h2 l3 h3 l4.
  pose proof (is_fresh (dom h)) as H1. fold l1 in H1.
  pose proof (is_fresh (dom h1)) as H2. fold l2 in H2.
  pose proof (is_fresh (dom h2)) as H3. fold l3 in H3.
  pose proof (is_fresh (dom h3)) as H4. fold l4 in H4.
  unfold h3 in H4. unfold h2 in H3, H4. unfold h1 in H2, H3, H4.
  rewrite !dom_insert_L in *.
  split.
  - repeat constructor; set_solver.
  - intros l Hl. apply not_elem_of_dom. set_solver.
Qed.

(** X14: when [load_all_data] returns, each of the four files has been read
    and converted into a frame of its own; the frames are new objects,
    different from each other and from every frame that existed before, and
    the dictionary gives them under the file names without [.csv]. *)
Theorem load_all_data_ok data_dir h h' data :
  load_all_data read_csv to_datetime data_dir h = (h', Ok data) →
  ∃ l1 l2 l3 l4 df1 df2 df3 df4,
    load_frame read_csv to_datetime data_dir "marketing_spend.csv" = Ok df1
    ∧ load_frame read_csv to_datetime data_dir "funnel_events.csv" = Ok df2
    ∧ load_frame read_csv to_datetime data_dir "revenue_marketing.csv" = Ok df3
    ∧ load_frame read_csv to_datetime data_dir "revenue_finance.csv" = Ok df4
    ∧ data = <["revenue_finance" := l4]> (<["revenue_marketing" := l3]>
               (<["funnel_events" := l2]> {["marketing_spend" := l1]}))
    ∧ h' = <[l4 := df4]> (<[l3 := df3]> (<[l2 := df2]> (<[l1 := df1]> h)))
    ∧ NoDup [l1; l2; l3; l4]
    ∧ ∀ l, l ∈ [l1; l2; l3; l4] → h !! l = None.
Proof.
  rewrite load_all_data_run.
  destruct (load_frame _ _ _ "marketing_spend.csv") as [df1|]; [|done].
  destruct (load_frame _ _ _ "funnel_events.csv") as [df2|]; [|done].
  destruct (load_frame _ _ _ "revenue_marketing.csv") as [df3|]; [|done].
  destruct (load_frame _ _ _ "revenue_finance.csv") as [df4|]; [|done].
  cbv zeta. intros [= <- <-].
  eexists _, _, _, _, df1, df2, df3, df4.
  do 4 (split; [done|]). split; [done|]. split; [done|].
  apply fresh_four.
Qed.

(** X15: when [load_all_data] raises, the fault is the one of the first
    file that could not be read or converted, a [FileNotFoundError] as any
    other; the files before it were loaded, and the frames that existed
    before are as they were. *)
Theorem load_all_data_fault data_dir h h' e :
  load_all_data read_csv to_datetime data_dir h = (h', Raise e) →
  ∃ before filename after,
    files_to_load = before ++ filename :: after
    ∧ Forall (λ f, is_ok (load_frame read_csv to_datetime data_dir f) = true) before
    ∧ load_frame read_csv to_datetime data_dir filename = Raise e
    ∧ h ⊆ h'.
Proof.
  unfold load_all_data. generalize (∅ : gmap string loc) as dataframes.
  revert h. generalize files_to_load as files.
  induction files as [|f files IH]; intros h dataframes; [done|].
  rewrite load_files_cons.
  destruct (load_frame read_csv to_datetime data_dir f) as [df|e'] eqn:Hf.
  - intros (before & filename & after & -> & Hbefore & Hfault & Hsub)%IH.
    exists (f :: before), filename, after. split; [done|]. split.
    + constructor; [by rewrite Hf|done].
    + split; [done|]. etrans; [|exact Hsub].
      apply insert_subseteq, not_elem_of_dom, is_fresh.
  - intros [= <- <-]. exists [], f, files. split; [done|]. split; [constructor|]. done.
Qed.
End loading_properties.

Lemma load_frame_columns_witness :
  let df := fin_frame fin_A in
  dom df = dom df
  ∧ ∀ c, if date_like c
         then ∀ col, df !! c = Some col →
                ∃ col', parse_dates col = Ok col' ∧ df !! c = Some col'
         else df !! c = df !! c.
Proof.
  intros df.
  apply (load_frame_columns files_scenario parse_dates "data/" "revenue_finance.csv" df df).
  - reflexivity.
  - vm_compute. reflexivity.
Defined.

Lemma load_all_data_ok_witness :
  let run := load_all_data files_scenario parse_dates "data/" ∅ in
  ∃ l1 l2 l3 l4 df1 df2 df3 df4,
    load_frame files_scenario parse_dates "data/" "marketing_spend.csv" = Ok df1
    ∧ load_frame files_scenario parse_dates "data/" "funnel_events.csv" = Ok df2
    ∧ load_frame files_scenario parse_dates "data/" "revenue_marketing.csv" = Ok df3
    ∧ load_frame files_scenario parse_dates "data/" "revenue_finance.csv" = Ok df4
    ∧ (<["revenue_finance" := 4%positive]> (<["revenue_marketing" := 3%positive]>
        (<["funnel_events" := 2%positive]> {["marketing_spend" := 1%positive]}))
       : gmap string loc)
      = <["revenue_finance" := l4]> (<["revenue_marketing" := l3]>
          (<["funnel_events" := l2]> {["marketing_spend" := l1]}))
    ∧ run.1 = <[l4 := df4]> (<[l3 := df3]> (<[l2 := df2]> (<[l1 := df1]> ∅)))
    ∧ NoDup [l1; l2; l3; l4]
    ∧ ∀ l, l ∈ [l1; l2; l3; l4] → (∅ : heap) !! l = None.
Proof.
  intros run.
  apply (load_all_data_ok files_scenario parse_dates "data/" ∅ run.1).
  vm_compute. reflexivity.
Defined.

Lemma load_all_data_fault_witness :
  ∃ before filename after,
    files_to_load = before ++ filename :: after
    ∧ Forall (λ f, is_ok (load_frame files_without_spend parse_dates "data/" f) = true) before
    ∧ load_frame files_without_spend parse_dates "data/" filename
      = Raise (FileNotFoundError "data/marketing_spend.csv")
    ∧ (∅ : heap) ⊆ ∅.
Proof.
  apply (load_all_data_fault files_without_spend parse_dates "data/" ∅ ∅
           (FileNotFoundError "data/marketing_spend.csv")).
  vm_compute. reflexivity.
Defined.

(** ** The report: schema-conform frames, and the frames in memory *)

Lemma frames_differ M F S E :
  funnel_frame E ≠ mkt_frame M
  ∧ funnel_frame E ≠ fin_frame F
  ∧ funnel_frame E ≠ spend_frame S.
Proof.
  repeat split; intros Heq;
    apply (f_equal (λ df : DataFrame, df !! "timestamp")) in Heq;
    vm_compute in Heq; discriminate.
Qed.

(** X16: on four frames that have the columns of the data model the
    report is always produced, whatever the cells hold, missing values and
    a total spend of 0 included; its summary gives the sum of the spend
    column, the sum of the finance revenue column, their float quotient and
    the number of anomalies. *)
Theorem reconcile_on_schema M F S E h df_mkt df_fin df_spend df_funnel :
  h !! df_mkt = Some (mkt_frame M) →
  h !! df_fin = Some (fin_frame F) →
  h !! df_spend = Some (spend_frame S) →
  h !! df_funnel = Some (funnel_frame E) →
  ∃ h' r anomalies,
    reconcile df_mkt df_fin df_spend df_funnel h = (h', Ok r)
    ∧ detect_misreporting (mkt_frame M) (fin_frame F) (spend_frame S) = Ok anomalies
    ∧ r !! "executive_summary"
      = Some (Summary
          (<["total_spend" := Number (nansum (s_spend <$> S))]>
          (<["total_finance_revenue" := Number (nansum (f_revenue <$> F))]>
          (<["overall_finance_roas" :=
               Ratio (fdiv (nansum (f_revenue <$> F)) (nansum (s_spend <$> S)))]>
          {["total_anomalies_detected" := Count (length anomalies)]}))))
    ∧ r !! "detected_anomalies" = Some (Anomalies anomalies).
Proof.
  intros Hm Hfi Hs Hf.
  assert (df_funnel ≠ df_mkt ∧ df_funnel ≠ df_fin ∧ df_funnel ≠ df_spend)
    as (Hfm & Hffi & Hfs).
  { destruct (frames_differ M F S E) as (H1 & H2 & H3).
    repeat split; intros ->; congruence. }
  destruct (calculate_cac_tables S E h df_spend df_funnel (not_eq_sym Hfs) Hs Hf)
    as (h' & cac_df & Hcac & _).
  pose proof (calculate_cac_frame df_spend df_funnel h) as Hframe.
  rewrite Hcac in Hframe. cbn [fst] in Hframe.
  exists h'. rewrite reconcile_steps, bind_run.
  unfold roas_step at 1. rewrite bind_deref, Hm, bind_deref, Hfi, bind_deref, Hs.
  unfold lift at 1. rewrite calculate_roas_eval. cbv beta iota zeta.
  rewrite bind_run, Hcac. clear Hcac. cbv beta iota.
  unfold summary_step.
  rewrite bind_deref, Hframe, Hm by congruence.
  rewrite bind_deref, Hframe, Hfi by congruence.
  rewrite bind_deref, Hframe, Hs by congruence.
  rewrite bind_lift, detect_misreporting_tables.
  rewrite bind_lift.
  change (column_sum (spend_frame S) "spend") with (Ok (nansum (s_spend <$> S))).
  cbv beta iota. rewrite bind_lift.
  change (column_sum (fin_frame F) "revenue") with (Ok (nansum (f_revenue <$> F))).
  cbv beta iota zeta.
  eexists _, _. split; [reflexivity|]. split; [reflexivity|]. split; reflexivity.
Qed.

Lemma reconcile_on_schema_witness :
  let h : heap :=
    <[1%positive := mkt_frame mkt_A]> (<[2%positive := fin_frame fin_A]>
      (<[3%positive := spend_frame spend_zero]> {[4%positive := funnel_frame funnel_U1]})) in
  ∃ h' r anomalies,
    reconcile 1%positive 2%positive 3%positive 4%positive h = (h', Ok r)
    ∧ detect_misreporting (mkt_frame mkt_A) (fin_frame fin_A) (spend_frame spend_zero)
      = Ok anomalies
    ∧ r !! "executive_summary"
      = Some (Summary
          (<["total_spend" := Number (nansum (s_spend <$> spend_zero))]>
          (<["total_finance_revenue" := Number (nansum (f_revenue <$> fin_A))]>
          (<["overall_finance_roas" :=
               Ratio (fdiv (nansum (f_revenue <$> fin_A)) (nansum (s_spend <$> spend_zero)))]>
          {["total_anomalies_detected" := Count (length anomalies)]}))))
    ∧ r !! "detected_anomalies" = Some (Anomalies anomalies).
Proof.
  intros h.
  apply (reconcile_on_schema mkt_A fin_A spend_zero funnel_U1 h
           1%positive 2%positive 3%positive 4%positive); reflexivity.
Defined.

(** The three steps of [reconcile] depend on the frames behind the
    references only. *)
Lemma roas_step_local m fi s m' fi' s' h g :
  h !! m = g !! m' → h !! fi = g !! fi' → h !! s = g !! s' →
  (roas_step m fi s h).2 = (roas_step m' fi' s' g).2.
Proof.
  intros Hm Hfi Hs. unfold roas_step. rewrite !bind_deref, Hm.
  destruct (g !! m'); [|done]. rewrite !bind_deref, Hfi.
  destruct (g !! fi'); [|done]. rewrite !bind_deref, Hs.
  by destruct (g !! s').
Qed.

Lemma summary_step_local m fi s m' fi' s' roas cac h g :
  h !! m = g !! m' → h !! fi = g !! fi' → h !! s = g !! s' →
  (summary_step m fi s roas cac h).2 = (summary_step m' fi' s' roas cac g).2.
Proof.
  intros Hm Hfi Hs. unfold summary_step. rewrite !bind_deref, Hm.
  destruct (g !! m'); [|done]. rewrite !bind_deref, Hfi.
  destruct (g !! fi'); [|done]. rewrite !bind_deref, Hs.
  destruct (g !! s'); [|done]. rewrite !bind_lift.
  destruct (detect_misreporting _ _ _); [|done]. rewrite !bind_lift.
  destruct (column_sum _ "spend"); [|done]. rewrite !bind_lift.
  by destruct (column_sum _ "revenue").
Qed.

Lemma calculate_cac_local s f s' f' h g :
  h !! s = g !! s' → h !! f = g !! f' → s ≠ f → s' ≠ f' →
  (calculate_cac s f h).2 = (calculate_cac s' f' g).2
  ∧ (calculate_cac s f h).1 !! f = (calculate_cac s' f' g).1 !! f'.
Proof.
  intros Hs Hf Hne Hne'. rewrite !calculate_cac_run, Hs, Hf.
  destruct (g !! s') as [spend|] eqn:Hgs; [|split; simpl; congruence].
  destruct (daily_campaigns_of spend) as [dc|]; [|split; simpl; congruence].
  destruct (g !! f') as [funnel|] eqn:Hgf; [|split; simpl; congruence].
  destruct (getitem funnel "timestamp" ≫= dt) as [ts|]; [|split; simpl; congruence].
  cbv zeta. cbn [fst snd].
  split; [|by rewrite !lookup_alter_eq, Hf, Hgf].
  unfold cac_after_write.
  rewrite !bind_deref, !lookup_alter_eq, Hf, Hgf. cbn [fmap option_fmap option_map].
  rewrite !bind_lift. destruct (acquisitions_of _ dc) as [acq|]; [|done].
  rewrite !bind_deref, !lookup_alter_ne, Hs, Hgs by done.
  rewrite !bind_lift. by destruct (groupby_sum _ _ _).
Qed.

Lemma reconcile_local m fi s f m' fi' s' f' h g :
  h !! m = g !! m' → h !! fi = g !! fi' → h !! s = g !! s' → h !! f = g !! f' →
  f ≠ m → f ≠ fi → f ≠ s → f' ≠ m' → f' ≠ fi' → f' ≠ s' →
  (reconcile m fi s f h).2 = (reconcile m' fi' s' f' g).2.
Proof.
  intros Hm Hfi Hs Hf ? ? ? ? ? ?. rewrite !reconcile_steps, !bind_run.
  pose proof (roas_step_local m fi s m' fi' s' h g Hm Hfi Hs) as Hroas.
  pose proof (roas_step_readonly m fi s h) as Hro.
  pose proof (roas_step_readonly m' fi' s' g) as Hro'.
  destruct (roas_step m fi s h) as [h0 r], (roas_step m' fi' s' g) as [g0 r'].
  simpl in *. subst h0 g0 r'. destruct r as [roas|]; [|done].
  rewrite !bind_run.
  destruct (calculate_cac_local s f s' f' h g) as [Hcac Hcacf];
    [done|done|congruence|congruence|].
  pose proof (calculate_cac_frame s f h) as Hfr.
  pose proof (calculate_cac_frame s' f' g) as Hfr'.
  destruct (calculate_cac s f h) as [h1 c], (calculate_cac s' f' g) as [g1 c'].
  simpl in *. subst c'. destruct c as [cac_df|]; [|done].
  apply summary_step_local; rewrite Hfr, Hfr' by congruence; done.
Qed.

Lemma four_frames_lookup (h : heap) l1 l2 l3 l4 df1 df2 df3 df4 :
  NoDup [l1; l2; l3; l4] →
  let h' := <[l4 := df4]> (<[l3 := df3]> (<[l2 := df2]> (<[l1 := df1]> h))) in
  h' !! l1 = Some df1 ∧ h' !! l2 = Some df2 ∧ h' !! l3 = Some df3 ∧ h' !! l4 = Some df4
  ∧ l2 ≠ l3 ∧ l2 ≠ l4 ∧ l2 ≠ l1.
Proof.
  intros Hnd h'.
  assert (l1 ≠ l2 ∧ l1 ≠ l3 ∧ l1 ≠ l4 ∧ l2 ≠ l3 ∧ l2 ≠ l4 ∧ l3 ≠ l4)
    as (? & ? & ? & ? & ? & ?).
  { apply list.NoDup_cons in Hnd as [H1 Hnd]. apply list.NoDup_cons in Hnd as [H2 Hnd].
    apply list.NoDup_cons in Hnd as [H3 _]. set_solver. }
  unfold h'. repeat split; try congruence; by simplify_map_eq.
Qed.

(** The calculations on four frames that were just loaded depend on the
    frames only, not on where they are. *)
Lemma loaded_frames_local (h g : heap) l1 l2 l3 l4 k1 k2 k3 k4 df1 df2 df3 df4 :
  NoDup [l1; l2; l3; l4] →
  NoDup [k1; k2; k3; k4] →
  let run (data : gmap string loc) : M report :=
    df_mkt ← lift (dict_get data "revenue_marketing");
    df_fin ← lift (dict_get data "revenue_finance");
    df_spend ← lift (dict_get data "marketing_spend");
    df_funnel ← lift (dict_get data "funnel_events");
    reconcile df_mkt df_fin df_spend df_funnel in
  (run (<["revenue_finance" := l4]> (<["revenue_marketing" := l3]>
          (<["funnel_events" := l2]> {["marketing_spend" := l1]})))
       (<[l4 := df4]> (<[l3 := df3]> (<[l2 := df2]> (<[l1 := df1]> h))))).2
  = (run (<["revenue_finance" := k4]> (<["revenue_marketing" := k3]>
            (<["funnel_events" := k2]> {["marketing_spend" := k1]})))
         (<[k4 := df4]> (<[k3 := df3]> (<[k2 := df2]> (<[k1 := df1]> g))))).2.
Proof.
  intros Hnd Hnd' run. unfold run.
  destruct (four_frames_lookup h l1 l2 l3 l4 df1 df2 df3 df4 Hnd)
    as (L1 & L2 & L3 & L4 & ? & ? & ?).
  destruct (four_frames_lookup g k1 k2 k3 k4 df1 df2 df3 df4 Hnd')
    as (G1 & G2 & G3 & G4 & ? & ? & ?).
  cbv zeta in *.
  rewrite !bind_lift.
  change (dict_get _ "revenue_marketing") with (Ok l3) at 1.
  change (dict_get _ "revenue_marketing") with (Ok k3).
  cbv beta iota. rewrite !bind_lift.
  change (dict_get _ "revenue_finance") with (Ok l4) at 1.
  change (dict_get _ "revenue_finance") with (Ok k4).
  cbv beta iota. rewrite !bind_lift.
  change (dict_get _ "marketing_spend") with (Ok l1) at 1.
  change (dict_get _ "marketing_spend") with (Ok k1).
  cbv beta iota. rewrite !bind_lift.
  change (dict_get _ "funnel_events") with (Ok l2) at 1.
  change (dict_get _ "funnel_events") with (Ok k2).
  cbv beta iota.
  apply reconcile_local; congruence.
Qed.

Section report_properties.
Variable read_csv : string → result DataFrame.
Variable to_datetime : column → result column.

Lemma try_body_heap_independent h g :
  (try_body read_csv to_datetime h).2 = (try_body read_csv to_datetime g).2.
Proof.
  unfold try_body. rewrite !bind_run, !load_all_data_run.
  destruct (load_frame _ _ _ "marketing_spend.csv") as [df1|]; [|done].
  destruct (load_frame _ _ _ "funnel_events.csv") as [df2|]; [|done].
  destruct (load_frame _ _ _ "revenue_marketing.csv") as [df3|]; [|done].
  destruct (load_frame _ _ _ "revenue_finance.csv") as [df4|]; [|done].
  cbv zeta. cbv beta iota.
  apply loaded_frames_local; apply fresh_four.
Qed.

(** X17: the report is a function of the files: the frames that are in
    memory when [generate_reconciliation_report] is called have no
    influence on it, so that a second call on unchanged files gives the
    report of the first. *)
Theorem report_depends_on_files_only h g :
  (generate_reconciliation_report read_csv to_datetime h).2
  = (generate_reconciliation_report read_csv to_datetime g).2.
Proof.
  unfold generate_reconciliation_report.
  pose proof (try_body_heap_independent h g) as Hsame.
  destruct (try_body read_csv to_datetime h) as [h' r],
           (try_body read_csv to_datetime g) as [g' r'].
  simpl in Hsame. subst r'. by destruct r.
Qed.
End report_properties.
